(** * Customer service: a shallow embedding of [service/routes.py]

    The REST layer of the customer service is embedded as functions over an
    explicit store.  Every handler of [service/routes.py] is a computation
    in a small state-and-exception monad: the state is the customer table,
    an exception is either an HTTP abort or the model's validation error.

    [service/models.py], [service/common/error_handlers.py] and
    [service/__init__.py] are not among the sources; what the handlers need
    from them is modelled from the written specification and marked so. *)

From Stdlib Require Import ZArith Ascii String Lia.
From stdpp Require Import base option list gmap strings pretty.

Open Scope string_scope.
Open Scope Z_scope.

(** ** JSON documents *)

(** The scalar JSON values a customer document carries. *)
Inductive json : Type :=
  | JNull
  | JBool (b : bool)
  | JInt (z : Z)
  | JStr (s : string).

#[export] Instance json_eq_dec : EqDecision json.
Proof. solve_decision. Defined.

(** A JSON object, as Python's [dict]. *)
Abbreviation dict := (gmap string json).

(** ** HTTP status codes ([service.common.status]) *)

Module status.
Definition HTTP_200_OK : Z := 200.
Definition HTTP_201_CREATED : Z := 201.
Definition HTTP_204_NO_CONTENT : Z := 204.
Definition HTTP_400_BAD_REQUEST : Z := 400.
Definition HTTP_404_NOT_FOUND : Z := 404.
Definition HTTP_405_METHOD_NOT_ALLOWED : Z := 405.
Definition HTTP_415_UNSUPPORTED_MEDIA_TYPE : Z := 415.
Definition HTTP_500_INTERNAL_SERVER_ERROR : Z := 500.
End status.

(** ** Calendar dates

    The tests read [member_since] with [date.fromisoformat] and compare it
    with [member_since.isoformat()]: the field is a calendar date whose
    JSON form is the ISO text [YYYY-MM-DD]. *)

Record date : Type := mkDate { year : Z; month : Z; day : Z }.

#[export] Instance date_eq_dec : EqDecision date.
Proof. solve_decision. Defined.

Definition is_leap (y : Z) : bool :=
  bool_decide (y mod 4 = 0) && (negb (bool_decide (y mod 100 = 0)) || bool_decide (y mod 400 = 0)).

Definition days_in_month (y m : Z) : Z :=
  if bool_decide (m = 2) then (if is_leap y then 29 else 28)
  else if bool_decide (m = 4 ∨ m = 6 ∨ m = 9 ∨ m = 11) then 30
  else 31.

Definition valid_date (d : date) : bool :=
  bool_decide (1 ≤ year d ≤ 9999) && bool_decide (1 ≤ month d ≤ 12)
  && bool_decide (1 ≤ day d ≤ days_in_month (year d) (month d)).

(** The value of a decimal digit character. *)
Definition digit (a : ascii) : option Z :=
  let n := Z.of_N (N_of_ascii a) in
  if bool_decide (48 ≤ n ≤ 57) then Some (n - 48) else None.

(** The character of a decimal digit. *)
Definition digit_char (d : Z) : ascii := ascii_of_N (Z.to_N (d + 48)).

Definition two_digits (a b : ascii) : option Z :=
  x ← digit a; y ← digit b; Some (10 * x + y).

Definition four_digits (a b c d : ascii) : option Z :=
  x ← two_digits a b; y ← two_digits c d; Some (100 * x + y).

Definition hyphen : ascii := "-"%char.

(** Modelled from the spec: [member_since] is an ISO date; this is
    [date.fromisoformat] on the text [YYYY-MM-DD], as the tests use it. *)
Definition fromisoformat (s : string) : option date :=
  match list_ascii_of_string s with
  | [y1; y2; y3; y4; h1; m1; m2; h2; d1; d2] =>
      if bool_decide (h1 = hyphen ∧ h2 = hyphen) then
        y ← four_digits y1 y2 y3 y4;
        m ← two_digits m1 m2;
        d ← two_digits d1 d2;
        let r := mkDate y m d in
        if valid_date r then Some r else None
      else None
  | _ => None
  end.

(** Modelled from the spec: [date.isoformat], the text [YYYY-MM-DD]. *)
Definition isoformat (d : date) : string :=
  string_of_list_ascii
    [ digit_char (year d / 1000 mod 10); digit_char (year d / 100 mod 10);
      digit_char (year d / 10 mod 10); digit_char (year d mod 10); hyphen;
      digit_char (month d / 10 mod 10); digit_char (month d mod 10); hyphen;
      digit_char (day d / 10 mod 10); digit_char (day d mod 10) ].

(** ** Exceptions and the handler monad *)

(** What a handler can raise: [abort(code, description)] of Flask, or the
    model's [DataValidationError]. *)
Inductive exn : Type :=
  | HTTPException (code : Z) (description : string)
  | DataValidationError (message : string).

Inductive result (A : Type) : Type :=
  | Ok (a : A)
  | Raise (e : exn).
Arguments Ok {A} a.
Arguments Raise {A} e.

#[export] Instance result_ret : MRet result := λ A a, Ok a.
#[export] Instance result_bind : MBind result := λ A B f r,
  match r with
  | Ok a => f a
  | Raise e => Raise e
  end.

(** ** The customer model *)

Module Customer.

(** Modelled from the spec: the single entity of the service, with the
    generated [id] (absent until the record is created) and the six data
    fields.  A Python [Customer()] has every field [None]; [deserialize]
    sets the six data fields or raises, so the initial values of [new]
    are never observed. *)
Record t : Type := mk {
  id : option Z;
  name : string;
  address : string;
  email : string;
  phone_number : string;
  member_since : date;
  status : string
}.

#[export] Instance eq_dec : EqDecision t.
Proof. solve_decision. Defined.

(** Modelled from the spec: the record that [Customer()] builds, not yet
    created. *)
Definition new : t :=
  mk None EmptyString EmptyString EmptyString EmptyString (mkDate 1 1 1) EmptyString.

(** Assignments to [self.id] and to [self.status]. *)
Definition set_id (i : option Z) (c : t) : t :=
  mk i (name c) (address c) (email c) (phone_number c) (member_since c) (status c).

Definition set_status (s : string) (c : t) : t :=
  mk (id c) (name c) (address c) (email c) (phone_number c) (member_since c) s.

(** Modelled from the spec: the relational table that backs the
    customers, its rows in the order of their creation, and the sequence
    that generates the ids ("id (generated, unique)"). *)
Record table : Type := mkTable { rows : list t; next_id : Z }.

(** Modelled from the spec: reading a required text field of the
    document, "fails with BadRequest on missing/invalid fields". *)
Definition field (data : dict) (key : string) : result string :=
  match data !! key with
  | None => Raise (DataValidationError ("Invalid Customer: missing " +:+ key))
  | Some (JStr s) => Ok s
  | Some _ => Raise (DataValidationError ("Invalid Customer: bad data in " +:+ key))
  end.

(** Modelled from the spec: reading the required ISO date of the
    document. *)
Definition date_field (data : dict) (key : string) : result date :=
  s ← field data key;
  match fromisoformat s with
  | Some d => Ok d
  | None => Raise (DataValidationError ("Invalid Customer: bad date in " +:+ key))
  end.

(** Modelled from the spec: [Customer.deserialize], which "validates
    required fields are present" and "fails with BadRequest on
    missing/invalid fields"; it replaces the six data fields of [self]
    and leaves [id] alone ("id is immutable once assigned; all other
    fields are fully replaceable on update"). *)
Definition deserialize (self : t) (data : dict) : result t :=
  n ← field data "name";
  a ← field data "address";
  e ← field data "email";
  p ← field data "phone_number";
  m ← date_field data "member_since";
  s ← field data "status";
  Ok (mk (id self) n a e p m s).

(** Modelled from the spec: the JSON form of the id, null before the
    record is created. *)
Definition json_id (i : option Z) : json :=
  match i with
  | Some z => JInt z
  | None => JNull
  end.

(** Modelled from the spec: [Customer.serialize], the JSON body shape
    [{name, address, email, phone_number, member_since (ISO date),
    status}] plus the server-assigned [id]. *)
Definition serialize (self : t) : dict :=
  {[ "id" := json_id (id self);
     "name" := JStr (name self);
     "address" := JStr (address self);
     "email" := JStr (email self);
     "phone_number" := JStr (phone_number self);
     "member_since" := JStr (isoformat (member_since self));
     "status" := JStr (status self) ]}.

(** Modelled from the spec: [Customer.all] of the persistence layer, "a
    single record type with create/read/update/delete and attribute-based
    lookup methods, backed by a relational table". *)
Definition all (db : table) : list t := rows db.

(** Modelled from the spec: [Customer.find], the record of an id, if any.
    The handlers receive the id as the path segment [customer_id]; it is
    taken here as the integer it denotes, as in the tests. *)
Definition find (by_id : Z) (db : table) : option t :=
  head (filter (λ c, id c = Some by_id) (rows db)).

(** Modelled from the spec: the attribute-based lookups, "records
    matching exactly one filter criterion"; each keeps the rows whose
    attribute is the given value. *)
Definition find_by_name (v : string) (db : table) : list t :=
  filter (λ c, name c = v) (rows db).

Definition find_by_address (v : string) (db : table) : list t :=
  filter (λ c, address c = v) (rows db).

Definition find_by_email (v : string) (db : table) : list t :=
  filter (λ c, email c = v) (rows db).

Definition find_by_phone (v : string) (db : table) : list t :=
  filter (λ c, phone_number c = v) (rows db).

Definition find_by_member_since (v : date) (db : table) : list t :=
  filter (λ c, member_since c = v) (rows db).

(** Modelled from the spec: [Customer.create], "assigns new id,
    persists"; the id is drawn from the sequence and the row appended. *)
Definition create (self : t) (db : table) : t * table :=
  let created := set_id (Some (next_id db)) self in
  (created, mkTable (rows db ++ [created]) (next_id db + 1)).

(** Modelled from the spec: [Customer.update], which persists [self] over
    the row that carries its id. *)
Definition update (self : t) (db : table) : table :=
  mkTable ((λ r, if decide (id r = id self) then self else r) <$> rows db)
          (next_id db).

(** Modelled from the spec: [Customer.delete], which removes the row that
    carries the id of [self]. *)
Definition delete (self : t) (db : table) : table :=
  mkTable (filter (λ r, id r ≠ id self) (rows db)) (next_id db).

(** The table invariant: ids are unique ("id (generated, unique)") and
    were drawn from the sequence. *)
Definition wf (db : table) : Prop :=
  NoDup (id <$> rows db) ∧
  Forall (λ c, ∃ i, id c = Some i ∧ i < next_id db) (rows db).

End Customer.

(** ** Requests, responses and the framework *)

(** What the handlers read of a Flask request: the headers (by their
    canonical names) and the JSON object the body carries, [None] when the
    body does not parse as a JSON object. *)
Record Request : Type := mkRequest {
  headers : gmap string string;
  json_body : option dict
}.

(** A URL built by Flask's [url_for], kept symbolic. *)
Inductive url : Type :=
  | url_for (endpoint : string) (customer_id : option Z).

Inductive payload : Type :=
  | Json (o : dict)
  | JsonList (l : list dict)
  | ServiceInfo (name version : string) (paths : url)
  | StaticFile (filename : string)
  | Description (text : string).

Record Response : Type := mkResponse {
  data : payload;
  status_code : Z;
  response_headers : list (string * url)
}.

(** What is left to the deployment: which Content-Type values werkzeug
    takes as JSON ([request.is_json]; "application/json" is one of them),
    which files the static folder holds, and which texts flask-restx's
    [inputs.date_from_iso8601] reads as a date ([None] where it raises). *)
Class Flask : Type := {
  is_json_mimetype : string → bool;
  application_json_is_json : is_json_mimetype "application/json" = true;
  has_static_file : string → bool;
  date_from_iso8601 : string → option date
}.

(** A view function: a computation over the customer table that returns
    or raises. *)
Definition View (A : Type) : Type := Customer.table → result A * Customer.table.

#[export] Instance view_ret : MRet View := λ A a db, (Ok a, db).
#[export] Instance view_bind : MBind View := λ A B f m db,
  match m db with
  | (Ok a, db') => f a db'
  | (Raise e, db') => (Raise e, db')
  end.

(** A step that cannot touch the table. *)
Definition pure {A : Type} (r : result A) : View A := λ db, (r, db).

(** A read of the table. *)
Definition query {A : Type} (f : Customer.table → A) : View A := λ db, (Ok (f db), db).

(** A committed write, and one that hands a value back. *)
Definition commit (f : Customer.table → Customer.table) : View unit := λ db, (Ok (), f db).

Definition commit_with {A : Type} (f : Customer.table → A * Customer.table) : View A :=
  λ db, (Ok (f db).1, (f db).2).

(** Flask's [abort]. *)
Definition abort {A : Type} (code : Z) (description : string) : View A :=
  pure (Raise (HTTPException code description)).

(** [request.get_json()], which is also flask-restx's [api.payload]:
    415 when the request is not JSON by its Content-Type (the tests
    [test_create_pet_no_content_type] and
    [test_create_customer_wrong_content_type] pin this), 400 when the body
    does not parse. *)
Definition get_json {flask : Flask} (request : Request) : result dict :=
  match headers request !! "Content-Type" with
  | Some content_type =>
      if is_json_mimetype content_type then
        match json_body request with
        | Some document => Ok document
        | None => Raise (HTTPException status.HTTP_400_BAD_REQUEST "Failed to decode JSON object")
        end
      else Raise (HTTPException status.HTTP_415_UNSUPPORTED_MEDIA_TYPE
                    "Did not attempt to load JSON data")
  | None => Raise (HTTPException status.HTTP_415_UNSUPPORTED_MEDIA_TYPE
                     "Did not attempt to load JSON data")
  end.

(** Modelled from the spec: the error handlers of
    [service/common/error_handlers.py], "BadRequest (400, invalid/missing
    fields)"; an HTTP abort becomes the response of its code. *)
Definition error_handler (e : exn) : Response :=
  match e with
  | HTTPException code description => mkResponse (Description description) code []
  | DataValidationError message =>
      mkResponse (Description message) status.HTTP_400_BAD_REQUEST []
  end.

(** Serving a request: the view runs on the table, a raised exception
    goes through the error handlers. *)
Definition serve (view : View Response) (db : Customer.table) : Response * Customer.table :=
  match view db with
  | (Ok response, db') => (response, db')
  | (Raise e, db') => (error_handler e, db')
  end.

(** The endpoints that [service/routes.py] registers: its view functions
    under their names, its resources under the names that flask-restx
    derives from the classes.  The function [list_customers] is commented
    out; no endpoint has that name. *)
Definition endpoints : list string :=
  [ "health_check"; "index"; "get_service_info"; "handle_root_non_get_requests";
    "customer_resource"; "customer_collection"; "suspend_resource" ].

(** Flask's [url_for]: the URL of a registered endpoint; for another name
    it raises [BuildError], which no handler catches, and the request is
    answered 500. *)
Definition url_for_endpoint (endpoint : string) (customer_id : option Z) : View url :=
  if existsb (String.eqb endpoint) endpoints
  then mret (url_for endpoint customer_id)
  else abort status.HTTP_500_INTERNAL_SERVER_ERROR "Internal Server Error".

(** ** The API models *)

Definition create_model : list string :=
  ["name"; "address"; "email"; "phone_number"; "member_since"; "status"].

Definition customer_model : list string := create_model ++ ["id"].

(** [api.marshal_with]: the response carries the keys of the model, a
    missing one as null; the values of a serialized customer pass as they
    are. *)
Definition marshal (model : list string) (o : dict) : dict :=
  list_to_map ((λ key, (key, default JNull (o !! key))) <$> model).

(** The query string of a request ([request.args]): its pairs of a name
    and a value, in their order. *)
Abbreviation query_string := (list (string * string)).

(** The parsed query string, as [customer_args.parse_args()] returns it:
    an argument that the request does not carry is [None], one that it
    carries without a value ([?name=]) is the empty text; [member_since]
    has gone through [inputs.date_from_iso8601]. *)
Module customer_args.
Record t : Type := mk {
  name : option string;
  address : option string;
  email : option string;
  phone_number : option string;
  member_since : option date;
  status : option string
}.

(** The values that the query gives to a name ([getlist]). *)
Definition getlist (query : query_string) (key : string) : list string :=
  (filter (λ pair, pair.1 = key) query).*2.

(** An argument of [type=str]: the first of its values, as it is. *)
Definition text_argument (query : query_string) (key : string) : option string :=
  head (getlist query key).

(** The argument of [type=inputs.date_from_iso8601]: every value it has
    goes through the type, and one that the type refuses aborts the
    request with 400; the first value is the argument. *)
Definition date_argument {flask : Flask} (query : query_string) (key : string)
    : result (option date) :=
  match mapM date_from_iso8601 (getlist query key) with
  | Some dates => Ok (head dates)
  | None =>
      Raise (HTTPException status.HTTP_400_BAD_REQUEST "Input payload validation failed")
  end.

Definition parse_args {flask : Flask} (query : query_string) : result t :=
  since ← date_argument query "member_since";
  Ok (mk (text_argument query "name") (text_argument query "address")
         (text_argument query "email") (text_argument query "phone_number")
         since (text_argument query "status")).
End customer_args.

(** Python's truth value of an optional string: [None] and the empty
    string are false. *)
Definition truth (v : option string) : bool :=
  match v with
  | Some s => negb (bool_decide (s = EmptyString))
  | None => false
  end.

(** ** The routes of [service/routes.py] *)

Definition health_check : View Response :=
  mret (mkResponse (Json {[ "status" := JInt 200; "message" := JStr "Healthy" ]})
                   status.HTTP_200_OK []).

Definition send_static_file {flask : Flask} (filename : string) : View Response :=
  if has_static_file filename
  then mret (mkResponse (StaticFile filename) status.HTTP_200_OK [])
  else abort status.HTTP_404_NOT_FOUND "Not Found".

Definition index {flask : Flask} : View Response :=
  send_static_file "index.html".

Definition get_service_info : View Response :=
  paths ← url_for_endpoint "list_customers" None;
  mret (mkResponse (ServiceInfo "Customer Service REST API" "1.0" paths)
                   status.HTTP_200_OK []).

Definition handle_root_non_get_requests : View Response :=
  mret (mkResponse
          (Json {[ "error" := JStr "Method not allowed. Please use GET method for this endpoint." ]})
          status.HTTP_405_METHOD_NOT_ALLOWED []).

Definition check_content_type (content_type : string) (request : Request) : View unit :=
  if bool_decide (headers request !! "Content-Type" = None) then
    abort status.HTTP_415_UNSUPPORTED_MEDIA_TYPE ("Content-Type must be " +:+ content_type)
  else if bool_decide (headers request !! "Content-Type" = Some content_type) then
    mret ()
  else
    abort status.HTTP_415_UNSUPPORTED_MEDIA_TYPE ("Content-Type must be " +:+ content_type).

Definition not_found_message (customer_id : Z) : string :=
  "Customer with id '" +:+ pretty customer_id +:+ "' was not found.".

(** PATH: /customers/{id} *)
Module CustomerResource.

Definition get (customer_id : Z) : View Response :=
  customer ← query (Customer.find customer_id);
  match customer with
  | None => abort status.HTTP_404_NOT_FOUND "404 Not Found"
  | Some customer =>
      mret (mkResponse (Json (marshal customer_model (Customer.serialize customer)))
                       status.HTTP_200_OK [])
  end.

Definition put {flask : Flask} (request : Request) (customer_id : Z) : View Response :=
  _ ← check_content_type "application/json" request;
  customer ← query (Customer.find customer_id);
  match customer with
  | None => abort status.HTTP_404_NOT_FOUND (not_found_message customer_id)
  | Some customer =>
      data ← pure (get_json request);
      customer ← pure (Customer.deserialize customer data);
      _ ← commit (Customer.update customer);
      mret (mkResponse (Json (marshal customer_model (Customer.serialize customer)))
                       status.HTTP_200_OK [])
  end.

Definition delete (customer_id : Z) : View Response :=
  customer ← query (Customer.find customer_id);
  _ ← match customer with
      | Some customer => commit (Customer.delete customer)
      | None => mret ()
      end;
  mret (mkResponse (Json ∅) status.HTTP_204_NO_CONTENT []).

End CustomerResource.

(** PATH: /customers *)
Module CustomerCollection.

(** [default EmptyString v] is the text of an argument [v] that is true. *)
Definition get {flask : Flask} (request_args : query_string) : View Response :=
  args ← pure (customer_args.parse_args request_args);
  customers ←
    (if truth (customer_args.name args) then
       query (Customer.find_by_name (default EmptyString (customer_args.name args)))
     else if truth (customer_args.address args) then
       query (Customer.find_by_address (default EmptyString (customer_args.address args)))
     else if truth (customer_args.email args) then
       query (Customer.find_by_email (default EmptyString (customer_args.email args)))
     else if truth (customer_args.phone_number args) then
       query (Customer.find_by_phone (default EmptyString (customer_args.phone_number args)))
     else match customer_args.member_since args with
          | Some since => query (Customer.find_by_member_since since)
          | None => query Customer.all
          end);
  let results := (λ customer, marshal customer_model (Customer.serialize customer)) <$> customers in
  mret (mkResponse (JsonList results) status.HTTP_200_OK []).

Definition post {flask : Flask} (request : Request) : View Response :=
  payload ← pure (get_json request);
  customer ← pure (Customer.deserialize Customer.new payload);
  customer ← commit_with (Customer.create customer);
  location_url ← url_for_endpoint "customer_resource" (Customer.id customer);
  mret (mkResponse (Json (marshal customer_model (Customer.serialize customer)))
                   status.HTTP_201_CREATED
                   [("Location", location_url)]).

End CustomerCollection.

(** PATH: /customers/{id}/suspend *)
Module SuspendResource.

Definition put (customer_id : Z) : View Response :=
  customer ← query (Customer.find customer_id);
  match customer with
  | Some customer =>
      let customer := Customer.set_status "suspended" customer in
      _ ← commit (Customer.update customer);
      mret (mkResponse (Json (marshal customer_model (Customer.serialize customer)))
                       status.HTTP_200_OK [])
  | None => abort status.HTTP_404_NOT_FOUND (not_found_message customer_id)
  end.

End SuspendResource.

(** ** The URL map of the application

    [@app.route] appends a rule; a request goes to the first rule of its
    path that allows its method.  A path that has rules, none for the
    method, is a 405.  The map below holds the rules that
    [service/routes.py] adds to the application itself, on the paths /
    and /health; the static folder, the resources under /customers and
    the [api] object have rules of their own, which are outside it, so
    that [match_rule] speaks for these two paths only. *)

(** The verbs that the routes name.  HEAD and OPTIONS, which Flask answers
    by itself, are not among them. *)
Inductive method : Type := GET | POST | PUT | DELETE | PATCH.

#[export] Instance method_eq_dec : EqDecision method.
Proof. solve_decision. Defined.

Inductive endpoint : Type :=
  | ep_health_check
  | ep_index
  | ep_get_service_info
  | ep_handle_root_non_get_requests.

Record rule : Type := mkRule {
  rule_path : string;
  rule_methods : list method;
  rule_endpoint : endpoint
}.

(** The [@app.route] decorators of [service/routes.py], in their order. *)
Definition url_map : list rule :=
  [ mkRule "/health" [GET] ep_health_check;
    mkRule "/" [GET] ep_index;
    mkRule "/" [GET] ep_get_service_info;
    mkRule "/" [POST; PUT; DELETE; PATCH] ep_handle_root_non_get_requests ].

Definition view_functions {flask : Flask} (e : endpoint) : View Response :=
  match e with
  | ep_health_check => health_check
  | ep_index => index
  | ep_get_service_info => get_service_info
  | ep_handle_root_non_get_requests => handle_root_non_get_requests
  end.

Definition match_rule (m : method) (path : string) : result endpoint :=
  let candidates := filter (λ r, rule_path r = path) url_map in
  match head (filter (λ r, m ∈ rule_methods r) candidates) with
  | Some r => Ok (rule_endpoint r)
  | None =>
      if bool_decide (candidates = [])
      then Raise (HTTPException status.HTTP_404_NOT_FOUND "Not Found")
      else Raise (HTTPException status.HTTP_405_METHOD_NOT_ALLOWED "Method Not Allowed")
  end.

Definition dispatch_request {flask : Flask} (m : method) (path : string) : View Response :=
  e ← pure (match_rule m path);
  view_functions e.

(** ** The resources of the api

    The three classes that [@api.route] registers, each with the verbs it
    defines as methods; a verb that the class does not define is a 405
    (the test [test_method_not_allowed] has it for DELETE on
    /customers). *)

Inductive resource : Type :=
  | customer_resource (customer_id : Z)
  | customer_collection
  | suspend_resource (customer_id : Z).

Definition api_dispatch {flask : Flask} (m : method) (r : resource)
    (request : Request) (args : query_string) : View Response :=
  match r, m with
  | customer_resource customer_id, GET => CustomerResource.get customer_id
  | customer_resource customer_id, PUT => CustomerResource.put request customer_id
  | customer_resource customer_id, DELETE => CustomerResource.delete customer_id
  | customer_collection, GET => CustomerCollection.get args
  | customer_collection, POST => CustomerCollection.post request
  | suspend_resource customer_id, PUT => SuspendResource.put customer_id
  | _, _ => abort status.HTTP_405_METHOD_NOT_ALLOWED "Method Not Allowed"
  end.



(** ** The test suite of [tests/test_routes.py]

    A test is a function to [bool]: it is [true] when every assertion of
    the test holds.  [CustomerFactory] is not among the sources; the
    customers it builds are arguments of the tests. *)

(** The calls of the Flask test client that the tests make. *)
Module client.

Definition no_args : query_string := [].

(** [json=document]: the body and the Content-Type of a JSON request. *)
Definition json (document : dict) : Request :=
  mkRequest {[ "Content-Type" := "application/json" ]} (Some document).

(** No body and no Content-Type. *)
Definition bare : Request := mkRequest ∅ None.

(** [data="hello", content_type="text/html"]: a body that is no JSON. *)
Definition html : Request := mkRequest {[ "Content-Type" := "text/html" ]} None.

Definition open {flask : Flask} (m : method) (r : resource) (request : Request)
    (db : Customer.table) : Response * Customer.table :=
  serve (api_dispatch m r request no_args) db.

(** [response.get_json()] of a record, and of a list. *)
Definition get_json (response : Response) : option dict :=
  match data response with
  | Json o => Some o
  | _ => None
  end.

Definition get_json_list (response : Response) : option (list dict) :=
  match data response with
  | JsonList l => Some l
  | _ => None
  end.

(** [response.headers.get(name, None)]. *)
Definition header (response : Response) (name : string) : option url :=
  snd <$> head (filter (λ h, h.1 = name) (response_headers response)).

(** [len(response.data)]: the handlers' [{}] with 204 goes out without a
    body. *)
Definition no_data (response : Response) : bool :=
  match data response with
  | Json o => bool_decide (o = ∅)
  | _ => false
  end.

End client.

Module TestCustomerResource.

(** [setUp]: the customers of the earlier tests are deleted; the sequence
    of ids goes on. *)
Definition setUp (db : Customer.table) : Customer.table :=
  Customer.mkTable [] (Customer.next_id db).

Definition text (o : dict) (key : string) : option string :=
  match o !! key with
  | Some (JStr s) => Some s
  | _ => None
  end.

Definition int (o : dict) (key : string) : option Z :=
  match o !! key with
  | Some (JInt z) => Some z
  | _ => None
  end.

(** [_create_customer(count)]: the customers number [first], ...,
    [first + count - 1] of the factory are posted; each comes back with the
    id, name, address, email, phone_number and member_since of the
    response.  [None] when an assertion of the utility fails. *)
Fixpoint _create_customer {flask : Flask} (factory : nat → Customer.t)
    (first count : nat) (db : Customer.table)
    : option (list Customer.t * Customer.table) :=
  match count with
  | O => Some ([], db)
  | S count =>
      let test_customer := factory first in
      let '(response, db) :=
        client.open POST customer_collection
          (client.json (Customer.serialize test_customer)) db in
      if bool_decide (status_code response = status.HTTP_201_CREATED) then
        new_customer ← client.get_json response;
        i ← int new_customer "id";
        n ← text new_customer "name";
        a ← text new_customer "address";
        e ← text new_customer "email";
        p ← text new_customer "phone_number";
        m ← text new_customer "member_since" ≫= fromisoformat;
        '(customers, db) ← _create_customer factory (S first) count db;
        Some (Customer.mk (Some i) n a e p m (Customer.status test_customer) :: customers, db)
      else None
  end.

(** The five comparisons of a response document with the customer that
    was posted. *)
Definition same_data (document : dict) (test_customer : Customer.t) : bool :=
  bool_decide (document !! "name" = Some (JStr (Customer.name test_customer)))
  && bool_decide (document !! "address" = Some (JStr (Customer.address test_customer)))
  && bool_decide (document !! "email" = Some (JStr (Customer.email test_customer)))
  && bool_decide (document !! "phone_number"
                  = Some (JStr (Customer.phone_number test_customer)))
  && bool_decide (document !! "member_since"
                  = Some (JStr (isoformat (Customer.member_since test_customer)))).

Definition test_create_customer {flask : Flask} (test_customer : Customer.t)
    (db : Customer.table) : bool :=
  let '(response, db) :=
    client.open POST customer_collection
      (client.json (Customer.serialize test_customer)) db in
  bool_decide (status_code response = status.HTTP_201_CREATED)
  && bool_decide (is_Some (client.header response "Location"))
  && match client.get_json response with
     | Some new_customer => same_data new_customer test_customer
     | None => false
     end.

Definition test_read_customer {flask : Flask} (test_customer : Customer.t)
    (db : Customer.table) : bool :=
  let '(response, db) :=
    client.open POST customer_collection
      (client.json (Customer.serialize test_customer)) db in
  bool_decide (status_code response = status.HTTP_201_CREATED)
  && bool_decide (is_Some (client.header response "Location"))
  && match client.get_json response with
     | Some new_customer =>
         same_data new_customer test_customer
         && match int new_customer "id" with
            | Some i =>
                let '(read_response, db) :=
                  client.open GET (customer_resource i) client.bare db in
                bool_decide (status_code read_response = status.HTTP_200_OK)
                && match client.get_json read_response with
                   | Some retrieved_customer => same_data retrieved_customer test_customer
                   | None => false
                   end
            | None => false
            end
     | None => false
     end.

Definition test_update_customer {flask : Flask} (test_customer : Customer.t)
    (db : Customer.table) : bool :=
  let '(response, db) :=
    client.open POST customer_collection
      (client.json (Customer.serialize test_customer)) db in
  bool_decide (status_code response = status.HTTP_201_CREATED)
  && match client.get_json response with
     | Some new_customer =>
         let new_customer := <["name" := JStr "Ryan"]> new_customer in
         match int new_customer "id" with
         | Some i =>
             let '(response, db) :=
               client.open PUT (customer_resource i) (client.json new_customer) db in
             bool_decide (status_code response = status.HTTP_200_OK)
             && match client.get_json response with
                | Some updated_customer =>
                    bool_decide (updated_customer !! "name" = Some (JStr "Ryan"))
                | None => false
                end
         | None => false
         end
     | None => false
     end.

Definition test_get_customer_list {flask : Flask} (factory : nat → Customer.t)
    (db : Customer.table) : bool :=
  match _create_customer factory 0 5 db with
  | Some (_, db) =>
      let '(response, db) := client.open GET customer_collection client.bare db in
      bool_decide (status_code response = status.HTTP_200_OK)
      && match client.get_json_list response with
         | Some data => bool_decide (length data = 5%nat)
         | None => false
         end
  | None => false
  end.

Definition test_delete_customer {flask : Flask} (factory : nat → Customer.t)
    (db : Customer.table) : bool :=
  match _create_customer factory 0 1 db with
  | Some (test_customer :: _, db) =>
      match Customer.id test_customer with
      | Some i =>
          let '(response, db) :=
            client.open DELETE (customer_resource i) client.bare db in
          bool_decide (status_code response = status.HTTP_204_NO_CONTENT)
          && client.no_data response
          && let '(response, db) :=
               client.open GET (customer_resource i) client.bare db in
             bool_decide (status_code response = status.HTTP_404_NOT_FOUND)
      | None => false
      end
  | _ => false
  end.

Definition test_delete_non_existing_customer {flask : Flask}
    (db : Customer.table) : bool :=
  let '(response, db) := client.open GET (customer_resource 0) client.bare db in
  bool_decide (status_code response = status.HTTP_404_NOT_FOUND)
  && let '(response, db) := client.open DELETE (customer_resource 0) client.bare db in
     bool_decide (status_code response = status.HTTP_204_NO_CONTENT)
     && client.no_data response.

End TestCustomerResource.

Module TestSadPaths.

Definition test_method_not_allowed {flask : Flask} (db : Customer.table) : bool :=
  let '(response, db) := client.open DELETE customer_collection client.bare db in
  bool_decide (status_code response = status.HTTP_405_METHOD_NOT_ALLOWED).

Definition test_create_pet_no_content_type {flask : Flask} (db : Customer.table) : bool :=
  let '(response, db) := client.open POST customer_collection client.bare db in
  bool_decide (status_code response = status.HTTP_415_UNSUPPORTED_MEDIA_TYPE).

Definition test_create_customer_wrong_content_type {flask : Flask}
    (db : Customer.table) : bool :=
  let '(response, db) := client.open POST customer_collection client.html db in
  bool_decide (status_code response = status.HTTP_415_UNSUPPORTED_MEDIA_TYPE).

Definition test_create_customer_no_data {flask : Flask} (db : Customer.table) : bool :=
  let '(response, db) := client.open POST customer_collection (client.json ∅) db in
  bool_decide (status_code response = status.HTTP_400_BAD_REQUEST).

End TestSadPaths.

(** ** The vocabulary of the statements *)

(** The JSON body carries the six data values of [c], the date as its ISO
    text. *)
Definition carries (data : dict) (c : Customer.t) : Prop :=
  data !! "name" = Some (JStr (Customer.name c)) ∧
  data !! "address" = Some (JStr (Customer.address c)) ∧
  data !! "email" = Some (JStr (Customer.email c)) ∧
  data !! "phone_number" = Some (JStr (Customer.phone_number c)) ∧
  (∃ since, data !! "member_since" = Some (JStr since) ∧
            fromisoformat since = Some (Customer.member_since c)) ∧
  data !! "status" = Some (JStr (Customer.status c)).

(** A filter criterion of the listing. *)
Inductive criterion : Type :=
  | by_name (v : string)
  | by_address (v : string)
  | by_email (v : string)
  | by_phone_number (v : string)
  | by_member_since (v : date).

Definition matches (k : criterion) (c : Customer.t) : Prop :=
  match k with
  | by_name v => Customer.name c = v
  | by_address v => Customer.address c = v
  | by_email v => Customer.email c = v
  | by_phone_number v => Customer.phone_number c = v
  | by_member_since v => Customer.member_since c = v
  end.

#[export] Instance matches_dec k c : Decision (matches k c).
Proof. destruct k; simpl; apply _. Defined.

(** The filter parameters that a query supplies, in the order name,
    address, email, phone_number, member_since. *)
Definition supplied (args : customer_args.t) : list criterion :=
  option_list (by_name <$> customer_args.name args)
  ++ option_list (by_address <$> customer_args.address args)
  ++ option_list (by_email <$> customer_args.email args)
  ++ option_list (by_phone_number <$> customer_args.phone_number args)
  ++ option_list (by_member_since <$> customer_args.member_since args).

(** The first parameter that is present. *)
Definition first_present (args : customer_args.t) : option criterion :=
  head (supplied args).

(** A parameter that carries a value: a date, or a text that is not
    empty. *)
Definition has_value (k : criterion) : Prop :=
  match k with
  | by_name v | by_address v | by_email v | by_phone_number v => v ≠ EmptyString
  | by_member_since _ => True
  end.

#[export] Instance has_value_dec k : Decision (has_value k).
Proof. destruct k; simpl; apply _. Defined.

(** The first parameter that is present with a value. *)
Definition first_with_value (args : customer_args.t) : option criterion :=
  head (filter has_value (supplied args)).

(** The records a criterion selects; all of them without a criterion. *)
Definition select (k : option criterion) (db : Customer.table) : list Customer.t :=
  match k with
  | Some k => filter (matches k) (Customer.rows db)
  | None => Customer.rows db
  end.

(** The answer of the listing for the selected records. *)
Definition listing (customers : list Customer.t) : Response :=
  mkResponse (JsonList (Customer.serialize <$> customers)) status.HTTP_200_OK [].

Definition only_status (v : string) : query_string := [("status", v)].

Definition empty_name_and_address : query_string :=
  [("name", EmptyString); ("address", "2 Oak St")].

Definition name_and_address : query_string :=
  [("name", "Bob"); ("address", "1 Elm St")].

Definition junk_member_since : query_string :=
  [("name", "Alice"); ("member_since", "junk")].

(** ** Sample data *)

(** A deployment that takes exactly "application/json" as JSON, serves
    [index.html] and reads the dates written YYYY-MM-DD. *)
Definition sample_flask : Flask :=
  {| is_json_mimetype content_type := bool_decide (content_type = "application/json");
     application_json_is_json := eq_refl;
     has_static_file filename := bool_decide (filename = "index.html");
     date_from_iso8601 := fromisoformat |}.

Definition alice : Customer.t :=
  Customer.mk (Some 1) "Alice" "1 Elm St" "alice@example.org" "555-0101"
              (mkDate 2024 1 2) "active".

Definition bob : Customer.t :=
  Customer.mk (Some 2) "Bob" "2 Oak St" "bob@example.org" "555-0102"
              (mkDate 2023 5 6) "suspended".

Definition sample_db : Customer.table := Customer.mkTable [alice; bob] 3.

Definition carol_document : dict :=
  {[ "name" := JStr "Carol"; "address" := JStr "3 Pine Rd";
     "email" := JStr "carol@example.org"; "phone_number" := JStr "555-0103";
     "member_since" := JStr "2022-12-31"; "status" := JStr "active" ]}.

Definition carol_request : Request :=
  mkRequest {[ "Content-Type" := "application/json" ]} (Some carol_document).

Definition carol (i : Z) : Customer.t :=
  Customer.mk (Some i) "Carol" "3 Pine Rd" "carol@example.org" "555-0103"
              (mkDate 2022 12 31) "active".

(** Carol's document with the id of another customer in it. *)
Definition carol_request_naming_alice : Request :=
  mkRequest {[ "Content-Type" := "application/json" ]}
            (Some (<["id" := JInt 1]> carol_document)).


Definition charset_request : Request :=
  mkRequest {[ "Content-Type" := "application/json; charset=utf-8" ]} (Some carol_document).

Definition empty_object_request : Request :=
  mkRequest {[ "Content-Type" := "application/json" ]} (Some ∅).

(** The records that posting the customers number [first], ...,
    [first + count - 1] of a factory creates, when the sequence stands at
    [next]. *)
Fixpoint created (factory : nat → Customer.t) (first count : nat) (next : Z)
    : list Customer.t :=
  match count with
  | O => []
  | S count =>
      Customer.set_id (Some next) (factory first)
      :: created factory (S first) count (next + 1)
  end.

(** A factory of customers with valid dates. *)
Definition sample_factory (k : nat) : Customer.t :=
  Customer.mk None "Dana" "4 Birch Ln" "dana@example.org" "555-0104"
              (mkDate 2020 1 (1 + Z.of_nat (k mod 28))) "active".

(** * Properties *)

Ltac run_view :=
  unfold serve, mbind, view_bind, mret, view_ret, pure, query, commit,
    commit_with, abort; simpl.


(** ** Dates: the ISO text of a parsed date is the text that was parsed *)

Lemma digit_spec (a : ascii) (x : Z) :
  digit a = Some x → 0 ≤ x ≤ 9 ∧ digit_char x = a.
Proof.
  unfold digit, digit_char. case_bool_decide as Hn; [|done].
  intros [= <-]. split; [lia|].
  replace (Z.of_N (N_of_ascii a) - 48 + 48) with (Z.of_N (N_of_ascii a)) by lia.
  by rewrite N2Z.id, ascii_N_embedding.
Qed.

Lemma two_digits_spec (a b : ascii) (v : Z) :
  two_digits a b = Some v →
  digit_char (v / 10 mod 10) = a ∧ digit_char (v mod 10) = b ∧ 0 ≤ v ≤ 99.
Proof.
  unfold two_digits. intros Hv.
  destruct (digit a) as [x|] eqn:Ha; [|done].
  destruct (digit b) as [y|] eqn:Hb; [|done].
  simpl in Hv. injection Hv as <-.
  apply digit_spec in Ha as [Hx <-]. apply digit_spec in Hb as [Hy <-].
  replace ((10 * x + y) / 10 mod 10) with x by (Z.div_mod_to_equations; lia).
  replace ((10 * x + y) mod 10) with y by (Z.div_mod_to_equations; lia).
  repeat split; lia.
Qed.

Lemma four_digits_spec (a b c d : ascii) (v : Z) :
  four_digits a b c d = Some v →
  digit_char (v / 1000 mod 10) = a ∧ digit_char (v / 100 mod 10) = b ∧
  digit_char (v / 10 mod 10) = c ∧ digit_char (v mod 10) = d.
Proof.
  unfold four_digits. intros Hv.
  destruct (two_digits a b) as [x|] eqn:Hab; [|done].
  destruct (two_digits c d) as [y|] eqn:Hcd; [|done].
  simpl in Hv. injection Hv as <-.
  apply two_digits_spec in Hab as (<- & <- & Hx).
  apply two_digits_spec in Hcd as (<- & <- & Hy).
  replace ((100 * x + y) / 1000 mod 10) with (x / 10 mod 10)
    by (Z.div_mod_to_equations; lia).
  replace ((100 * x + y) / 100 mod 10) with (x mod 10)
    by (Z.div_mod_to_equations; lia).
  replace ((100 * x + y) / 10 mod 10) with (y / 10 mod 10)
    by (Z.div_mod_to_equations; lia).
  replace ((100 * x + y) mod 10) with (y mod 10)
    by (Z.div_mod_to_equations; lia).
  done.
Qed.

Lemma isoformat_fromisoformat (s : string) (d : date) :
  fromisoformat s = Some d → isoformat d = s.
Proof.
  unfold fromisoformat. intros Hd.
  rewrite <- (string_of_list_ascii_of_string s).
  destruct (list_ascii_of_string s)
    as [|y1 [|y2 [|y3 [|y4 [|h1 [|m1 [|m2 [|h2 [|d1 [|d2 [|? ?]]]]]]]]]]]; try done.
  case_bool_decide as Hh; [|done]. destruct Hh as [-> ->].
  destruct (four_digits y1 y2 y3 y4) as [y|] eqn:Hy; [|done].
  destruct (two_digits m1 m2) as [m|] eqn:Hm; [|done].
  destruct (two_digits d1 d2) as [x|] eqn:Hx; [|done].
  simpl in Hd. destruct (valid_date _); [|done]. injection Hd as <-.
  apply four_digits_spec in Hy as (<- & <- & <- & <-).
  apply two_digits_spec in Hm as (<- & <- & _).
  apply two_digits_spec in Hx as (<- & <- & _).
  done.
Qed.

Example fromisoformat_leap_day :
  fromisoformat "2024-02-29" = Some (mkDate 2024 2 29).
Proof. vm_compute. reflexivity. Qed.

Example fromisoformat_no_such_day : fromisoformat "2023-02-29" = None.
Proof. vm_compute. reflexivity. Qed.

Example isoformat_pads : isoformat (mkDate 987 3 4) = "0987-03-04".
Proof. vm_compute. reflexivity. Qed.

(** ** The persistence layer *)

Section persistence.
Implicit Types (c self : Customer.t) (db : Customer.table) (i : Z).

Lemma find_Some i db c :
  Customer.find i db = Some c → Customer.id c = Some i ∧ c ∈ Customer.rows db.
Proof.
  unfold Customer.find. intros Hc.
  assert (c ∈ filter (λ c, Customer.id c = Some i) (Customer.rows db)) as Hin.
  { destruct (filter _ _); [done|]. injection Hc as ->. left. }
  by apply list_elem_of_filter in Hin.
Qed.

Lemma find_None i db :
  Customer.find i db = None ↔ ∀ c, c ∈ Customer.rows db → Customer.id c ≠ Some i.
Proof.
  unfold Customer.find. split.
  - intros Hnone c Hc Hid.
    assert (c ∈ filter (λ c, Customer.id c = Some i) (Customer.rows db)) as Hin
      by by apply list_elem_of_filter.
    destruct (filter _ _); [by apply not_elem_of_nil in Hin | done].
  - intros Hall.
    destruct (filter _ _) as [|c l] eqn:Hf; [done|].
    assert (c ∈ filter (λ c, Customer.id c = Some i) (Customer.rows db)) as Hin
      by (rewrite Hf; left).
    apply list_elem_of_filter in Hin as [Hid Hc]. by destruct (Hall c Hc).
Qed.

(** [update] writes the row of the record's id and no other. *)
Lemma find_update i db c self :
  Customer.find i db = Some c → Customer.id self = Some i →
  Customer.find i (Customer.update self db) = Some self.
Proof.
  unfold Customer.find, Customer.update. simpl.
  intros Hc Hid. induction (Customer.rows db) as [|r l IH]; [done|].
  rewrite fmap_cons. rewrite filter_cons in Hc. rewrite filter_cons.
  destruct (decide (Customer.id r = Customer.id self)) as [Heq|Hne].
  - rewrite decide_True by done. done.
  - rewrite decide_False in Hc by congruence.
    rewrite decide_False by congruence. by apply IH.
Qed.

Lemma find_update_ne i db self :
  Customer.id self ≠ Some i →
  Customer.find i (Customer.update self db) = Customer.find i db.
Proof.
  unfold Customer.find, Customer.update. simpl. intros Hne. f_equal.
  induction (Customer.rows db) as [|r l IH]; [done|].
  rewrite fmap_cons, !filter_cons.
  destruct (decide (Customer.id r = Customer.id self)) as [Heq|Hne'].
  - rewrite !decide_False by congruence. done.
  - destruct (decide (Customer.id r = Some i)); by rewrite IH.
Qed.

(** [update] leaves the id column as it is. *)
Lemma ids_update db self :
  Customer.id <$> Customer.rows (Customer.update self db)
  = Customer.id <$> Customer.rows db.
Proof.
  unfold Customer.update. simpl.
  induction (Customer.rows db) as [|r l IH]; [done|].
  rewrite !fmap_cons, IH. by destruct (decide _) as [->|].
Qed.

Lemma rows_delete db self c :
  c ∈ Customer.rows (Customer.delete self db) ↔
  c ∈ Customer.rows db ∧ Customer.id c ≠ Customer.id self.
Proof. unfold Customer.delete. simpl. rewrite list_elem_of_filter. tauto. Qed.

Lemma find_delete i db self :
  Customer.id self = Some i → Customer.find i (Customer.delete self db) = None.
Proof.
  intros Hid. apply find_None. intros c Hc%rows_delete. destruct Hc. congruence.
Qed.

(** A record that [create] stored is found under the id it was given. *)
Lemma find_create db self :
  Customer.wf db →
  Customer.find (Customer.next_id db) (Customer.create self db).2
  = Some (Customer.create self db).1.
Proof.
  intros [_ Hlt]. unfold Customer.find, Customer.create. simpl.
  rewrite filter_app.
  replace (filter _ (Customer.rows db)) with (@nil Customer.t).
  - by rewrite filter_cons, decide_True.
  - symmetry. induction Hlt as [|r l (j & Hj & Hlt) _ IH]; [done|].
    rewrite filter_cons, decide_False; [done|].
    rewrite Hj. intros [= ->]. lia.
Qed.

(** The empty table has the invariant, and every operation of the layer
    keeps it. *)
Lemma wf_empty : Customer.wf (Customer.mkTable [] 1).
Proof. split; simpl; [apply NoDup_nil_2 | apply Forall_nil_2]. Qed.

Lemma wf_create db self : Customer.wf db → Customer.wf (Customer.create self db).2.
Proof.
  intros [Hnd Hlt]. unfold Customer.create. split; simpl.
  - rewrite fmap_app. apply NoDup_app. split_and!; [done| |apply NoDup_singleton].
    intros i Hi Hnew. apply list_elem_of_singleton in Hnew as ->.
    apply list_elem_of_fmap in Hi as (r & Hr & Hin).
    rewrite Forall_forall in Hlt. destruct (Hlt r Hin) as (j & Hj & ?).
    simpl in Hr. rewrite Hj in Hr. injection Hr as <-. lia.
  - apply Forall_app. split.
    + eapply Forall_impl; [exact Hlt|]. intros r (j & ? & ?). exists j. split; [done|lia].
    + apply Forall_singleton. exists (Customer.next_id db). simpl. split; [done|lia].
Qed.

Lemma wf_update db self c i :
  Customer.find i db = Some c → Customer.id self = Some i →
  Customer.wf db → Customer.wf (Customer.update self db).
Proof.
  intros Hc Hid [Hnd Hlt]. split.
  - by rewrite ids_update.
  - unfold Customer.update. simpl. apply Forall_fmap.
    eapply Forall_impl; [exact Hlt|]. intros r (j & Hj & ?). simpl.
    destruct (decide _) as [Heq|]; [|by exists j].
    exists j. split; [congruence|done].
Qed.

Lemma wf_delete db self : Customer.wf db → Customer.wf (Customer.delete self db).
Proof.
  intros [Hnd Hlt]. unfold Customer.delete. split; simpl.
  - clear Hlt. induction (Customer.rows db) as [|r l IH]; [done|].
    rewrite fmap_cons in Hnd. apply NoDup_cons in Hnd as [Hr Hnd].
    rewrite filter_cons. destruct (decide _); [|by apply IH].
    rewrite fmap_cons. apply NoDup_cons. split; [|by apply IH].
    intros Hin. apply Hr.
    apply list_elem_of_fmap in Hin as (r' & -> & Hin%list_elem_of_filter).
    apply list_elem_of_fmap. exists r'. tauto.
  - apply Forall_forall. intros r Hr%list_elem_of_filter.
    rewrite Forall_forall in Hlt. apply Hlt. tauto.
Qed.

End persistence.

(** ** Documents *)

Section documents.
Implicit Types (c self : Customer.t) (data : dict).

(** A serialized customer already has the shape of [customer_model]. *)
Lemma marshal_serialize c :
  marshal customer_model (Customer.serialize c) = Customer.serialize c.
Proof.
  destruct c as [i n a e p m s]. unfold Customer.serialize. simpl.
  generalize (isoformat m) (Customer.json_id i). intros iso ji.
  vm_compute. reflexivity.
Qed.

Lemma serialize_data c :
  Customer.serialize c !! "name" = Some (JStr (Customer.name c)) ∧
  Customer.serialize c !! "address" = Some (JStr (Customer.address c)) ∧
  Customer.serialize c !! "email" = Some (JStr (Customer.email c)) ∧
  Customer.serialize c !! "phone_number" = Some (JStr (Customer.phone_number c)) ∧
  Customer.serialize c !! "member_since"
    = Some (JStr (isoformat (Customer.member_since c))) ∧
  Customer.serialize c !! "status" = Some (JStr (Customer.status c)).
Proof. by split_and!. Qed.

Lemma serialize_id c :
  Customer.serialize c !! "id" = Some (Customer.json_id (Customer.id c)).
Proof. done. Qed.

Lemma field_Ok data key s :
  Customer.field data key = Ok s ↔ data !! key = Some (JStr s).
Proof.
  unfold Customer.field. destruct (data !! key) as [[]|]; split; congruence.
Qed.

(** What [deserialize] accepts, and what it makes of it. *)
Lemma deserialize_Ok self data c :
  Customer.deserialize self data = Ok c ↔
  Customer.id c = Customer.id self ∧
  data !! "name" = Some (JStr (Customer.name c)) ∧
  data !! "address" = Some (JStr (Customer.address c)) ∧
  data !! "email" = Some (JStr (Customer.email c)) ∧
  data !! "phone_number" = Some (JStr (Customer.phone_number c)) ∧
  (∃ since, data !! "member_since" = Some (JStr since) ∧
            fromisoformat since = Some (Customer.member_since c)) ∧
  data !! "status" = Some (JStr (Customer.status c)).
Proof.
  unfold Customer.deserialize, Customer.date_field. split.
  - intros Hc.
    destruct (Customer.field data "name") as [n|] eqn:Hn; [|done].
    destruct (Customer.field data "address") as [a|] eqn:Ha; [|done].
    destruct (Customer.field data "email") as [e|] eqn:He; [|done].
    destruct (Customer.field data "phone_number") as [p|] eqn:Hp; [|done].
    destruct (Customer.field data "member_since") as [m|] eqn:Hm; [|done].
    simpl in Hc. destruct (fromisoformat m) as [d|] eqn:Hd; [|done].
    destruct (Customer.field data "status") as [s|] eqn:Hs; [|done].
    simpl in Hc. injection Hc as <-. simpl.
    apply field_Ok in Hn, Ha, He, Hp, Hm, Hs. split_and!; try done.
    by exists m.
  - destruct c as [i n a e p d s]. simpl.
    intros (-> & Hn & Ha & He & Hp & (m & Hm & Hd) & Hs).
    apply field_Ok in Hn, Ha, He, Hp, Hm, Hs.
    rewrite Hn, Ha, He, Hp, Hm. simpl. rewrite Hd, Hs. done.
Qed.

(** The document of a deserialized customer repeats the six data fields
    of the document it was read from. *)
Lemma serialize_deserialize self data c key :
  Customer.deserialize self data = Ok c → key ∈ create_model →
  Customer.serialize c !! key = data !! key.
Proof.
  intros (_ & Hn & Ha & He & Hp & (m & Hm & Hd) & Hs)%deserialize_Ok Hkey.
  apply isoformat_fromisoformat in Hd.
  destruct (serialize_data c) as (Sn & Sa & Se & Sp & Sm & Ss).
  unfold create_model in Hkey.
  repeat (apply elem_of_cons in Hkey as [->|Hkey]; [congruence|]).
  by apply not_elem_of_nil in Hkey.
Qed.

End documents.

(** ** The sample data *)

Lemma sample_db_wf : Customer.wf sample_db.
Proof.
  split.
  - simpl. apply NoDup_cons. split; [|apply NoDup_singleton].
    intros Hin. apply list_elem_of_singleton in Hin. discriminate Hin.
  - repeat constructor; eexists; (split; [reflexivity|reflexivity]).
Defined.

Lemma carol_document_carries i : carries carol_document (carol i).
Proof.
  unfold carries. split_and!; try reflexivity.
  exists "2022-12-31". split; [reflexivity | vm_compute; reflexivity].
Defined.

(** ** The handlers *)

Section handlers.
Context {flask : Flask}.
Implicit Types (request : Request) (db : Customer.table) (customer_id : Z).

Lemma check_content_type_other request v db :
  headers request !! "Content-Type" ≠ Some v →
  check_content_type v request db
  = (Raise (HTTPException status.HTTP_415_UNSUPPORTED_MEDIA_TYPE
              ("Content-Type must be " +:+ v)), db).
Proof.
  intros Hne. unfold check_content_type.
  case_bool_decide; [done|]. by rewrite bool_decide_false.
Qed.

Lemma check_content_type_same request v db :
  headers request !! "Content-Type" = Some v →
  check_content_type v request db = (Ok (), db).
Proof.
  intros Heq. unfold check_content_type. rewrite Heq.
  rewrite bool_decide_false by done. by rewrite bool_decide_true.
Qed.

Lemma get_json_application_json request :
  headers request !! "Content-Type" = Some "application/json" →
  get_json request
  = match json_body request with
    | Some document => Ok document
    | None => Raise (HTTPException status.HTTP_400_BAD_REQUEST "Failed to decode JSON object")
    end.
Proof.
  intros Heq. unfold get_json. by rewrite Heq, application_json_is_json.
Qed.

Lemma get_json_Raise request e :
  get_json request = Raise e → status_code (error_handler e) ≠ status.HTTP_200_OK.
Proof.
  unfold get_json. intros He.
  repeat case_match; simplify_eq; done.
Qed.

Lemma field_Raise data key e :
  Customer.field data key = Raise e →
  status_code (error_handler e) = status.HTTP_400_BAD_REQUEST.
Proof.
  unfold Customer.field. destruct (data !! key) as [[]|]; by intros [= <-].
Qed.

Lemma date_field_Raise data key e :
  Customer.date_field data key = Raise e →
  status_code (error_handler e) = status.HTTP_400_BAD_REQUEST.
Proof.
  unfold Customer.date_field.
  destruct (Customer.field data key) as [s|e'] eqn:Hs; simpl.
  - destruct (fromisoformat s); by intros [= <-].
  - intros [= <-]. by eapply field_Raise.
Qed.

Lemma deserialize_Raise self data e :
  Customer.deserialize self data = Raise e →
  status_code (error_handler e) = status.HTTP_400_BAD_REQUEST.
Proof.
  unfold Customer.deserialize.
  destruct (Customer.field data "name") eqn:Hn; simpl;
    [|intros [= <-]; by eapply field_Raise].
  destruct (Customer.field data "address") eqn:Ha; simpl;
    [|intros [= <-]; by eapply field_Raise].
  destruct (Customer.field data "email") eqn:He; simpl;
    [|intros [= <-]; by eapply field_Raise].
  destruct (Customer.field data "phone_number") eqn:Hp; simpl;
    [|intros [= <-]; by eapply field_Raise].
  destruct (Customer.date_field data "member_since") eqn:Hm; simpl;
    [|intros [= <-]; by eapply date_field_Raise].
  destruct (Customer.field data "status") eqn:Hs; simpl;
    [done|intros [= <-]; by eapply field_Raise].
Qed.



(** C10. The Content-Type check of PUT /customers/{id} takes the exact
    text "application/json" only: with any other value of the header,
    "application/json; charset=utf-8" among them, the answer is 415 and
    the table is left alone. *)
Theorem put_content_type_exact request customer_id db content_type :
  headers request !! "Content-Type" = Some content_type →
  content_type ≠ "application/json" →
  serve (CustomerResource.put request customer_id) db
  = (mkResponse (Description "Content-Type must be application/json")
                status.HTTP_415_UNSUPPORTED_MEDIA_TYPE [], db).
Proof.
  intros Heq Hne. unfold CustomerResource.put. run_view.
  rewrite check_content_type_other; [done|]. rewrite Heq. congruence.
Qed.

(** C3. A POST on /customers without a Content-Type header is answered
    415; a POST whose JSON body is the empty object is answered 400; in
    both cases no customer is created. *)
Theorem post_rejects request db :
  (headers request !! "Content-Type" = None →
   ∃ text,
     serve (CustomerCollection.post request) db
     = (mkResponse (Description text) status.HTTP_415_UNSUPPORTED_MEDIA_TYPE [], db)) ∧
  (∀ content_type,
     headers request !! "Content-Type" = Some content_type →
     is_json_mimetype content_type = true →
     json_body request = Some ∅ →
     ∃ text,
       serve (CustomerCollection.post request) db
       = (mkResponse (Description text) status.HTTP_400_BAD_REQUEST [], db)).
Proof.
  split.
  - intros Hnone. eexists. unfold CustomerCollection.post, get_json. run_view.
    by rewrite Hnone.
  - intros content_type Heq Hjson Hbody. eexists.
    unfold CustomerCollection.post, get_json. run_view.
    by rewrite Heq, Hjson, Hbody.
Qed.

Lemma delete_absent customer_id db :
  Customer.find customer_id db = None →
  serve (CustomerResource.delete customer_id) db
  = (mkResponse (Json ∅) status.HTTP_204_NO_CONTENT [], db).
Proof. intros Hnone. unfold CustomerResource.delete. run_view. by rewrite Hnone. Qed.

(** C4. A DELETE on /customers/{id} answers 204 with an empty body for
    every id, whether a customer has the id or not; afterwards no
    customer has the id, and a second DELETE of the id answers 204 again
    and leaves the table as it is. *)
Theorem delete_is_idempotent customer_id db :
  let no_content := mkResponse (Json ∅) status.HTTP_204_NO_CONTENT [] in
  let db' := (serve (CustomerResource.delete customer_id) db).2 in
  (serve (CustomerResource.delete customer_id) db).1 = no_content ∧
  Customer.find customer_id db' = None ∧
  (∀ c, c ∈ Customer.rows db' → Customer.id c ≠ Some customer_id) ∧
  serve (CustomerResource.delete customer_id) db' = (no_content, db').
Proof.
  assert (Customer.find customer_id (serve (CustomerResource.delete customer_id) db).2
          = None) as Hgone.
  { unfold CustomerResource.delete. run_view.
    destruct (Customer.find customer_id db) as [c|] eqn:Hc; simpl; [|done].
    apply find_delete. by apply find_Some in Hc as [? _]. }
  simpl. split_and!.
  - unfold CustomerResource.delete. run_view.
    by destruct (Customer.find customer_id db).
  - done.
  - by apply find_None.
  - by apply delete_absent.
Qed.

Lemma get_found customer_id db c :
  Customer.find customer_id db = Some c →
  serve (CustomerResource.get customer_id) db
  = (mkResponse (Json (Customer.serialize c)) status.HTTP_200_OK [], db).
Proof.
  intros Hc. unfold CustomerResource.get. run_view. rewrite Hc. simpl.
  by rewrite marshal_serialize.
Qed.

Lemma get_missing customer_id db :
  Customer.find customer_id db = None →
  serve (CustomerResource.get customer_id) db
  = (mkResponse (Description "404 Not Found") status.HTTP_404_NOT_FOUND [], db).
Proof. intros Hc. unfold CustomerResource.get. run_view. by rewrite Hc. Qed.

Lemma post_accepted request data c db :
  get_json request = Ok data →
  Customer.deserialize Customer.new data = Ok c →
  serve (CustomerCollection.post request) db
  = (mkResponse (Json (Customer.serialize (Customer.create c db).1))
                status.HTTP_201_CREATED
                [("Location",
                  url_for "customer_resource" (Customer.id (Customer.create c db).1))],
     (Customer.create c db).2).
Proof.
  intros Hjson Hde. unfold CustomerCollection.post. run_view.
  rewrite Hjson, Hde. by rewrite marshal_serialize.
Qed.

(** C5. For a valid customer body, the POST on /customers creates the
    record, and the GET on /customers/{id} with the id that the POST
    returned answers a record whose name, address, email, phone_number,
    member_since and status are the values of the posted body. *)
Theorem create_then_read request data created db :
  Customer.wf db →
  get_json request = Ok data →
  carries data created →
  ∃ i db' document,
    serve (CustomerCollection.post request) db
    = (mkResponse (Json (Customer.serialize (Customer.set_id (Some i) created)))
                  status.HTTP_201_CREATED
                  [("Location", url_for "customer_resource" (Some i))], db') ∧
    serve (CustomerResource.get i) db'
    = (mkResponse (Json document) status.HTTP_200_OK [], db') ∧
    document !! "id" = Some (JInt i) ∧
    ∀ key, key ∈ create_model → document !! key = data !! key.
Proof.
  intros Hwf Hjson Hdata.
  assert (Customer.deserialize Customer.new data
          = Ok (Customer.set_id None created)) as Hde.
  { apply deserialize_Ok. by destruct created. }
  pose proof (find_create db (Customer.set_id None created) Hwf) as Hfind.
  exists (Customer.next_id db), (Customer.create (Customer.set_id None created) db).2.
  exists (Customer.serialize (Customer.set_id (Some (Customer.next_id db)) created)).
  split_and!.
  - by rewrite (post_accepted _ _ _ _ Hjson Hde).
  - by apply get_found.
  - done.
  - intros key Hkey.
    apply (serialize_deserialize
             (Customer.set_id (Some (Customer.next_id db)) Customer.new)); [|done].
    apply deserialize_Ok. by destruct created.
Qed.

(** C6. For a customer of the table, the PUT on /customers/{id}/suspend
    stores "suspended" as the status of that customer and leaves its id,
    name, address, email, phone_number and member_since as they were, and
    the other customers too; when no customer has the id, the answer is
    404. *)
Theorem suspend_sets_status customer_id db :
  (∀ c,
     Customer.find customer_id db = Some c →
     ∃ c',
       serve (SuspendResource.put customer_id) db
       = (mkResponse (Json (Customer.serialize c')) status.HTTP_200_OK [],
          Customer.update c' db) ∧
       Customer.find customer_id (Customer.update c' db) = Some c' ∧
       (∀ other, other ≠ customer_id →
          Customer.find other (Customer.update c' db) = Customer.find other db) ∧
       Customer.status c' = "suspended" ∧
       Customer.id c' = Customer.id c ∧
       Customer.name c' = Customer.name c ∧
       Customer.address c' = Customer.address c ∧
       Customer.email c' = Customer.email c ∧
       Customer.phone_number c' = Customer.phone_number c ∧
       Customer.member_since c' = Customer.member_since c) ∧
  (Customer.find customer_id db = None →
   ∃ text,
     serve (SuspendResource.put customer_id) db
     = (mkResponse (Description text) status.HTTP_404_NOT_FOUND [], db)).
Proof.
  split.
  - intros c Hc. exists (Customer.set_status "suspended" c).
    apply find_Some in Hc as Hid. destruct Hid as [Hid _].
    split_and!; try done.
    + unfold SuspendResource.put. run_view. rewrite Hc. simpl.
      by rewrite marshal_serialize.
    + by eapply find_update.
    + intros other Hother. apply find_update_ne. simpl. congruence.
  - intros Hnone. eexists. unfold SuspendResource.put. run_view. by rewrite Hnone.
Qed.

Lemma put_outcome request customer_id db response db' :
  serve (CustomerResource.put request customer_id) db = (response, db') →
  status_code response = status.HTTP_200_OK →
  ∃ stored data updated,
    Customer.find customer_id db = Some stored ∧
    Customer.deserialize stored data = Ok updated ∧
    response = mkResponse (Json (Customer.serialize updated)) status.HTTP_200_OK [] ∧
    db' = Customer.update updated db.
Proof.
  unfold CustomerResource.put. run_view.
  destruct (check_content_type _ request db) as [[[]|e] db1] eqn:Hct.
  - assert (db1 = db) as ->.
    { unfold check_content_type, abort, pure, mret, view_ret in Hct.
      repeat case_bool_decide; by simplify_eq. }
    destruct (Customer.find customer_id db) as [stored|] eqn:Hstored; simpl.
    + destruct (get_json request) as [data|e] eqn:Hjson; simpl.
      2: { apply get_json_Raise in Hjson. by intros [= <- <-]. }
      destruct (Customer.deserialize stored data) as [updated|e] eqn:Hde; simpl.
      2: { apply deserialize_Raise in Hde. intros [= <- <-]. by rewrite Hde. }
      rewrite marshal_serialize. intros [= <- <-] _. by exists stored, data, updated.
    + by intros [= <- <-].
  - unfold check_content_type, abort, pure, mret, view_ret in Hct.
    repeat case_bool_decide; simplify_eq; by intros [= <- <-].
Qed.

(** C7. No endpoint changes the id of a stored customer.  After a
    successful PUT on /customers/{id}, whatever id the body names, and
    after a successful PUT on /customers/{id}/suspend, the id column of
    the table is what it was, the record that is answered is the one
    stored under the id of the path and carries that id, and every other
    customer reads as before; the reads leave the table alone, a DELETE
    only removes rows and a POST only appends one. *)
Theorem id_is_immutable request customer_id db :
  (∀ response db',
     serve (CustomerResource.put request customer_id) db = (response, db') →
     status_code response = status.HTTP_200_OK →
     Customer.id <$> Customer.rows db' = Customer.id <$> Customer.rows db ∧
     (∃ c, data response = Json (Customer.serialize c) ∧
           Customer.find customer_id db' = Some c ∧ Customer.id c = Some customer_id) ∧
     ∀ other, other ≠ customer_id → Customer.find other db' = Customer.find other db) ∧
  (∀ response db',
     serve (SuspendResource.put customer_id) db = (response, db') →
     status_code response = status.HTTP_200_OK →
     Customer.id <$> Customer.rows db' = Customer.id <$> Customer.rows db ∧
     (∃ c, data response = Json (Customer.serialize c) ∧
           Customer.find customer_id db' = Some c ∧ Customer.id c = Some customer_id) ∧
     ∀ other, other ≠ customer_id → Customer.find other db' = Customer.find other db) ∧
  (serve (CustomerResource.get customer_id) db).2 = db ∧
  (∀ args, (serve (CustomerCollection.get args) db).2 = db) ∧
  (∀ c, c ∈ Customer.rows (serve (CustomerResource.delete customer_id) db).2 →
        c ∈ Customer.rows db) ∧
  Customer.rows db `prefix_of` Customer.rows (serve (CustomerCollection.post request) db).2.
Proof.
  split_and!.
  - intros response db' Hput Hok.
    destruct (put_outcome _ _ _ _ _ Hput Hok)
      as (stored & data & updated & Hs & Hde & -> & ->).
    apply deserialize_Ok in Hde as [Hid _].
    apply find_Some in Hs as Hstored. destruct Hstored as [Hstored _].
    assert (Customer.id updated = Some customer_id) as Hupdated by congruence.
    split_and!.
    + apply ids_update.
    + exists updated. split_and!; [done | by eapply find_update | done].
    + intros other Hother. apply find_update_ne. congruence.
  - intros response db'. unfold SuspendResource.put. run_view.
    destruct (Customer.find customer_id db) as [c|] eqn:Hc; simpl; [|by intros [= <- <-]].
    rewrite marshal_serialize. intros [= <- <-] _.
    apply find_Some in Hc as Hid. destruct Hid as [Hid _].
    split_and!.
    + apply ids_update.
    + exists (Customer.set_status "suspended" c).
      split_and!; [done | by eapply find_update | done].
    + intros other Hother. apply find_update_ne. simpl. congruence.
  - unfold CustomerResource.get. run_view.
    by destruct (Customer.find customer_id db).
  - intros args. unfold CustomerCollection.get. run_view.
    destruct (customer_args.parse_args args) as [parsed|e]; simpl; [|done].
    repeat (destruct (truth _); [done|]).
    by destruct (customer_args.member_since parsed).
  - unfold CustomerResource.delete. run_view.
    destruct (Customer.find customer_id db) as [c|]; simpl; [|done].
    intros r Hr%rows_delete. tauto.
  - unfold CustomerCollection.post. run_view.
    destruct (get_json request) as [data|e]; simpl; [|by destruct e].
    destruct (Customer.deserialize Customer.new data) as [c|e]; simpl; [|by destruct e].
    by apply prefix_app_r.
Qed.

(** A body that lacks a field, or carries a bad one, is answered 400 and
    nothing is stored. *)
Lemma put_invalid_body request customer_id db stored data e :
  headers request !! "Content-Type" = Some "application/json" →
  Customer.find customer_id db = Some stored →
  json_body request = Some data →
  Customer.deserialize stored data = Raise e →
  ∃ text,
    serve (CustomerResource.put request customer_id) db
    = (mkResponse (Description text) status.HTTP_400_BAD_REQUEST [], db).
Proof.
  intros Heq Hstored Hbody Hde. unfold CustomerResource.put. run_view.
  rewrite check_content_type_same, Hstored by done.
  rewrite get_json_application_json, Hbody by done. rewrite Hde.
  apply deserialize_Raise in Hde. destruct e; simpl in *; [|by eexists].
  rewrite Hde. by eexists.
Qed.

(** Every endpoint keeps the table invariant. *)
Lemma endpoints_keep_wf request customer_id args db :
  Customer.wf db →
  Customer.wf (serve (CustomerResource.get customer_id) db).2 ∧
  Customer.wf (serve (CustomerResource.put request customer_id) db).2 ∧
  Customer.wf (serve (CustomerResource.delete customer_id) db).2 ∧
  Customer.wf (serve (CustomerCollection.get args) db).2 ∧
  Customer.wf (serve (CustomerCollection.post request) db).2 ∧
  Customer.wf (serve (SuspendResource.put customer_id) db).2.
Proof.
  intros Hwf. split_and!.
  - unfold CustomerResource.get. run_view. by destruct (Customer.find customer_id db).
  - unfold CustomerResource.put, check_content_type. run_view.
    repeat case_bool_decide; simpl; try done.
    destruct (Customer.find customer_id db) as [stored|] eqn:Hstored; simpl; [|done].
    destruct (get_json request) as [data|]; simpl; [|done].
    destruct (Customer.deserialize stored data) as [updated|] eqn:Hde; simpl; [|done].
    apply deserialize_Ok in Hde as [Hid _]. apply find_Some in Hstored as Hs.
    destruct Hs as [Hs _]. eapply wf_update; [done| |done]. congruence.
  - unfold CustomerResource.delete. run_view.
    destruct (Customer.find customer_id db); simpl; [by apply wf_delete|done].
  - unfold CustomerCollection.get. run_view.
    destruct (customer_args.parse_args args) as [parsed|e]; simpl; [|done].
    repeat (destruct (truth _); [done|]).
    by destruct (customer_args.member_since parsed).
  - unfold CustomerCollection.post. run_view.
    destruct (get_json request) as [data|]; simpl; [|done].
    destruct (Customer.deserialize Customer.new data) as [c|]; simpl; [|done].
    by apply (wf_create db c).
  - unfold SuspendResource.put. run_view.
    destruct (Customer.find customer_id db) as [c|] eqn:Hc; simpl; [|done].
    apply find_Some in Hc as Hid. destruct Hid as [Hid _].
    by eapply wf_update.
Qed.

End handlers.

(** ** Listing: the filter that a query selects *)

Section listing.
Context {flask : Flask}.
Implicit Types (args : customer_args.t) (request_args : query_string)
  (db : Customer.table).

Lemma marshal_results (customers : list Customer.t) :
  (λ customer, marshal customer_model (Customer.serialize customer)) <$> customers
  = Customer.serialize <$> customers.
Proof. apply list_fmap_ext. intros _ c _. apply marshal_serialize. Qed.

Lemma first_with_value_text (by_text : string → criterion) (v : option string)
    (rest : list criterion) :
  (∀ s, has_value (by_text s) ↔ s ≠ EmptyString) →
  head (filter has_value (option_list (by_text <$> v) ++ rest)%list)
  = if truth v then Some (by_text (default EmptyString v)) else head (filter has_value rest).
Proof.
  intros Hvalue. destruct v as [s|]; simpl; [|done].
  rewrite filter_cons. destruct (decide (s = EmptyString)) as [->|Hs].
  - rewrite decide_False by (rewrite Hvalue; tauto). done.
  - rewrite decide_True by by rewrite Hvalue.
    by rewrite bool_decide_false.
Qed.

Lemma first_with_value_eq args :
  first_with_value args
  = if truth (customer_args.name args) then
      Some (by_name (default EmptyString (customer_args.name args)))
    else if truth (customer_args.address args) then
      Some (by_address (default EmptyString (customer_args.address args)))
    else if truth (customer_args.email args) then
      Some (by_email (default EmptyString (customer_args.email args)))
    else if truth (customer_args.phone_number args) then
      Some (by_phone_number (default EmptyString (customer_args.phone_number args)))
    else by_member_since <$> customer_args.member_since args.
Proof.
  unfold first_with_value, supplied.
  rewrite !first_with_value_text by done.
  repeat (destruct (truth _); [done|]).
  by destruct (customer_args.member_since args).
Qed.

(** The listing, by what [parse_args] makes of the query. *)
Lemma get_selects request_args db :
  serve (CustomerCollection.get request_args) db
  = (match customer_args.parse_args request_args with
     | Ok args => listing (select (first_with_value args) db)
     | Raise e => error_handler e
     end, db).
Proof.
  unfold CustomerCollection.get. run_view.
  destruct (customer_args.parse_args request_args) as [args|e]; simpl; [|done].
  rewrite first_with_value_eq. unfold listing.
  repeat (destruct (truth _); [by rewrite marshal_results|]).
  destruct (customer_args.member_since args); by rewrite marshal_results.
Qed.

(** [parse_args] refuses a query exactly for a value of member_since that
    is no date, with 400. *)
Lemma parse_args_refuses request_args :
  Exists (λ value, date_from_iso8601 value = None)
         (customer_args.getlist request_args "member_since") →
  customer_args.parse_args request_args
  = Raise (HTTPException status.HTTP_400_BAD_REQUEST "Input payload validation failed").
Proof.
  intros Hbad. unfold customer_args.parse_args, customer_args.date_argument.
  apply mapM_None in Hbad. by rewrite Hbad.
Qed.

Lemma parse_args_accepts request_args :
  Forall (λ value, is_Some (date_from_iso8601 value))
         (customer_args.getlist request_args "member_since") →
  ∃ since,
    customer_args.parse_args request_args
    = Ok (customer_args.mk
            (customer_args.text_argument request_args "name")
            (customer_args.text_argument request_args "address")
            (customer_args.text_argument request_args "email")
            (customer_args.text_argument request_args "phone_number")
            since
            (customer_args.text_argument request_args "status")) ∧
    (since = None ↔ customer_args.getlist request_args "member_since" = []).
Proof.
  intros Hgood. unfold customer_args.parse_args, customer_args.date_argument.
  destruct (mapM_is_Some_2 date_from_iso8601 _ Hgood) as [dates Hdates].
  rewrite Hdates. exists (head dates). split; [done|].
  apply length_mapM in Hdates.
  destruct (customer_args.getlist request_args "member_since"), dates;
    simpl in *; split; congruence.
Qed.

(** C9, as the code has it.  For a request that does not supply status:
    when member_since is supplied with a text that is no date, the answer
    is 400; otherwise the listing is decided by the first of name,
    address, email, phone_number, member_since that is present with a
    value (a text that is not empty, or a date) and the parameters after
    it are ignored; when no parameter is supplied, all records are
    returned. *)
Theorem list_by_first_parameter_with_value request_args db :
  customer_args.getlist request_args "status" = [] →
  (Exists (λ value, date_from_iso8601 value = None)
          (customer_args.getlist request_args "member_since") →
   ∃ text,
     serve (CustomerCollection.get request_args) db
     = (mkResponse (Description text) status.HTTP_400_BAD_REQUEST [], db)) ∧
  (Forall (λ value, is_Some (date_from_iso8601 value))
          (customer_args.getlist request_args "member_since") →
   ∃ args,
     customer_args.parse_args request_args = Ok args ∧
     customer_args.name args = customer_args.text_argument request_args "name" ∧
     customer_args.address args = customer_args.text_argument request_args "address" ∧
     customer_args.email args = customer_args.text_argument request_args "email" ∧
     customer_args.phone_number args
     = customer_args.text_argument request_args "phone_number" ∧
     serve (CustomerCollection.get request_args) db
     = (listing (select (first_with_value args) db), db)) ∧
  (request_args = [] →
   serve (CustomerCollection.get request_args) db = (listing (Customer.all db), db)).
Proof.
  intros _. split_and!.
  - intros Hbad. rewrite get_selects, parse_args_refuses by done. by eexists.
  - intros Hgood. destruct (parse_args_accepts _ Hgood) as (since & Hargs & _).
    eexists. split; [exact Hargs|]. split_and!; try done.
    by rewrite get_selects, Hargs.
  - intros ->. by rewrite get_selects.
Qed.

Lemma list_by_status_only v db :
  serve (CustomerCollection.get (only_status v)) db
  = (listing (Customer.all db), db).
Proof. by rewrite get_selects. Qed.

(** C1.  The listing does not filter by status: for the query
    [?status=active] on a table that holds an active and a suspended
    customer, the handler answers both records. *)
Theorem list_by_status_returns_all :
  serve (CustomerCollection.get (only_status "active")) sample_db
  = (listing [alice; bob], sample_db) ∧
  Customer.status bob ≠ "active" ∧
  filter (λ c, Customer.status c = "active") (Customer.rows sample_db) = [alice].
Proof.
  split_and!.
  - apply list_by_status_only.
  - discriminate.
  - vm_compute. reflexivity.
Qed.

End listing.

Example list_with_empty_name :
  customer_args.parse_args (flask := sample_flask) empty_name_and_address
  = Ok (customer_args.mk (Some EmptyString) (Some "2 Oak St") None None None None) ∧
  serve (CustomerCollection.get (flask := sample_flask) empty_name_and_address) sample_db
  = (listing [bob], sample_db) ∧
  select (first_present
            (customer_args.mk (Some EmptyString) (Some "2 Oak St") None None None None))
         sample_db = [].
Proof. split_and!; vm_compute; reflexivity. Qed.

Example list_with_name_and_address :
  serve (CustomerCollection.get (flask := sample_flask) name_and_address) sample_db
  = (listing [bob], sample_db).
Proof. vm_compute. reflexivity. Qed.

(** C9, as stated, fails: with an empty name and an address, the first
    parameter that is present is the name, and the listing is decided by
    the address; and with a name and a member_since that is no date, the
    answer is 400 and no listing at all. *)
Lemma list_by_first_present_fails :
  (customer_args.parse_args (flask := sample_flask) empty_name_and_address
   = Ok (customer_args.mk (Some EmptyString) (Some "2 Oak St") None None None None) ∧
   serve (CustomerCollection.get (flask := sample_flask) empty_name_and_address) sample_db
   ≠ (listing
        (select (first_present
                   (customer_args.mk (Some EmptyString) (Some "2 Oak St")
                      None None None None)) sample_db),
      sample_db)) ∧
  status_code
    (serve (CustomerCollection.get (flask := sample_flask) junk_member_since) sample_db).1
  = status.HTTP_400_BAD_REQUEST.
Proof.
  split; [split|].
  - vm_compute. reflexivity.
  - rewrite get_selects. vm_compute. intros Heq. discriminate Heq.
  - vm_compute. reflexivity.
Qed.

(** ** The root path *)

Section root.
Context {flask : Flask}.

(** C8.  On the root path, GET goes to the first rule of the path,
    [index], which serves the static page: the answer is never the
    service metadata of [get_service_info].  POST, PUT, DELETE and PATCH
    are answered 405. *)
Theorem root_get_serves_index (db : Customer.table) :
  match_rule GET "/" = Ok ep_index ∧
  serve (dispatch_request GET "/") db = serve index db ∧
  (∀ name version paths,
     data (serve (dispatch_request GET "/") db).1 ≠ ServiceInfo name version paths) ∧
  status_code (serve (dispatch_request POST "/") db).1 = status.HTTP_405_METHOD_NOT_ALLOWED ∧
  status_code (serve (dispatch_request PUT "/") db).1 = status.HTTP_405_METHOD_NOT_ALLOWED ∧
  status_code (serve (dispatch_request DELETE "/") db).1 = status.HTTP_405_METHOD_NOT_ALLOWED ∧
  status_code (serve (dispatch_request PATCH "/") db).1 = status.HTTP_405_METHOD_NOT_ALLOWED.
Proof.
  split_and!; try reflexivity.
  intros name version paths.
  unfold dispatch_request. run_view. unfold index, send_static_file.
  destruct (has_static_file "index.html"); simpl; discriminate.
Qed.

(** Had the request reached it, [get_service_info] would not answer the
    metadata either: no endpoint is named [list_customers], and the
    request would end in a 500. *)
Lemma get_service_info_answer (db : Customer.table) :
  serve get_service_info db
  = (mkResponse (Description "Internal Server Error")
                status.HTTP_500_INTERNAL_SERVER_ERROR [], db).
Proof. reflexivity. Qed.

End root.

(** ** The theorems at sample requests *)

Lemma list_by_first_parameter_with_value_witness :
  customer_args.getlist name_and_address "status" = [] ∧
  Forall (λ value, is_Some (date_from_iso8601 (Flask := sample_flask) value))
         (customer_args.getlist name_and_address "member_since") ∧
  ∃ args,
    customer_args.parse_args (flask := sample_flask) name_and_address = Ok args ∧
    customer_args.name args = customer_args.text_argument name_and_address "name" ∧
    customer_args.address args = customer_args.text_argument name_and_address "address" ∧
    customer_args.email args = customer_args.text_argument name_and_address "email" ∧
    customer_args.phone_number args
    = customer_args.text_argument name_and_address "phone_number" ∧
    serve (CustomerCollection.get (flask := sample_flask) name_and_address) sample_db
    = (listing (select (first_with_value args) sample_db), sample_db).
Proof.
  assert (customer_args.getlist name_and_address "status" = []) as Hstatus
    by reflexivity.
  assert (Forall (λ value, is_Some (date_from_iso8601 (Flask := sample_flask) value))
            (customer_args.getlist name_and_address "member_since")) as Hdates
    by apply Forall_nil_2.
  split; [exact Hstatus|]. split; [exact Hdates|].
  destruct (list_by_first_parameter_with_value (flask := sample_flask) name_and_address
              sample_db Hstatus) as (_ & Hlisting & _).
  exact (Hlisting Hdates).
Defined.



Lemma put_content_type_exact_witness :
  headers charset_request !! "Content-Type" = Some "application/json; charset=utf-8" ∧
  "application/json; charset=utf-8" ≠ "application/json" ∧
  serve (CustomerResource.put (flask := sample_flask) charset_request 2) sample_db
  = (mkResponse (Description "Content-Type must be application/json")
                status.HTTP_415_UNSUPPORTED_MEDIA_TYPE [], sample_db).
Proof.
  assert (headers charset_request !! "Content-Type"
          = Some "application/json; charset=utf-8") as Hheader by reflexivity.
  assert ("application/json; charset=utf-8" ≠ "application/json") as Hother
    by discriminate.
  split_and!; [exact Hheader | exact Hother |].
  exact (put_content_type_exact (flask := sample_flask) charset_request 2 sample_db
           _ Hheader Hother).
Defined.

Lemma post_rejects_witness :
  (headers (mkRequest ∅ None) !! "Content-Type" = None ∧
   ∃ text,
     serve (CustomerCollection.post (flask := sample_flask) (mkRequest ∅ None)) sample_db
     = (mkResponse (Description text) status.HTTP_415_UNSUPPORTED_MEDIA_TYPE [], sample_db)) ∧
  (headers empty_object_request !! "Content-Type" = Some "application/json" ∧
   is_json_mimetype (Flask := sample_flask) "application/json" = true ∧
   json_body empty_object_request = Some ∅ ∧
   ∃ text,
     serve (CustomerCollection.post (flask := sample_flask) empty_object_request) sample_db
     = (mkResponse (Description text) status.HTTP_400_BAD_REQUEST [], sample_db)).
Proof.
  split; split_and!; try reflexivity.
  - apply (post_rejects (flask := sample_flask) (mkRequest ∅ None) sample_db).
    reflexivity.
  - apply (post_rejects (flask := sample_flask) empty_object_request sample_db)
      with (content_type := "application/json"); reflexivity.
Defined.

Lemma delete_is_idempotent_witness :
  (serve (CustomerResource.delete 2) sample_db).1
  = mkResponse (Json ∅) status.HTTP_204_NO_CONTENT [] ∧
  Customer.find 2 (serve (CustomerResource.delete 2) sample_db).2 = None ∧
  serve (CustomerResource.delete 2) (serve (CustomerResource.delete 2) sample_db).2
  = (mkResponse (Json ∅) status.HTTP_204_NO_CONTENT [],
     (serve (CustomerResource.delete 2) sample_db).2).
Proof.
  destruct (delete_is_idempotent 2 sample_db) as (Hfirst & Hgone & _ & Hsecond).
  split_and!; [exact Hfirst | exact Hgone | exact Hsecond].
Defined.

Lemma create_then_read_witness :
  Customer.wf sample_db ∧
  get_json (flask := sample_flask) carol_request = Ok carol_document ∧
  carries carol_document (carol 0) ∧
  ∃ i db' document,
    serve (CustomerCollection.post (flask := sample_flask) carol_request) sample_db
    = (mkResponse (Json (Customer.serialize (Customer.set_id (Some i) (carol 0))))
                  status.HTTP_201_CREATED
                  [("Location", url_for "customer_resource" (Some i))], db') ∧
    serve (CustomerResource.get i) db'
    = (mkResponse (Json document) status.HTTP_200_OK [], db') ∧
    document !! "id" = Some (JInt i) ∧
    ∀ key, key ∈ create_model → document !! key = carol_document !! key.
Proof.
  assert (get_json (flask := sample_flask) carol_request = Ok carol_document) as Hjson
    by reflexivity.
  split_and!; [exact sample_db_wf | exact Hjson | apply carol_document_carries |].
  exact (create_then_read (flask := sample_flask) carol_request carol_document (carol 0)
           sample_db sample_db_wf Hjson (carol_document_carries 0)).
Defined.

Lemma suspend_sets_status_witness :
  (Customer.find 1 sample_db = Some alice ∧
   ∃ c',
     serve (SuspendResource.put 1) sample_db
     = (mkResponse (Json (Customer.serialize c')) status.HTTP_200_OK [],
        Customer.update c' sample_db) ∧
     Customer.find 1 (Customer.update c' sample_db) = Some c' ∧
     (∀ other, other ≠ 1 →
        Customer.find other (Customer.update c' sample_db)
        = Customer.find other sample_db) ∧
     Customer.status c' = "suspended" ∧
     Customer.id c' = Customer.id alice ∧
     Customer.name c' = Customer.name alice ∧
     Customer.address c' = Customer.address alice ∧
     Customer.email c' = Customer.email alice ∧
     Customer.phone_number c' = Customer.phone_number alice ∧
     Customer.member_since c' = Customer.member_since alice) ∧
  (Customer.find 7 sample_db = None ∧
   ∃ text,
     serve (SuspendResource.put 7) sample_db
     = (mkResponse (Description text) status.HTTP_404_NOT_FOUND [], sample_db)).
Proof.
  assert (Customer.find 1 sample_db = Some alice) as Halice by reflexivity.
  assert (Customer.find 7 sample_db = None) as Habsent by reflexivity.
  split; (split; [done|]).
  - exact (proj1 (suspend_sets_status 1 sample_db) alice Halice).
  - exact (proj2 (suspend_sets_status 7 sample_db) Habsent).
Defined.

Lemma id_is_immutable_witness :
  let put :=
    serve (CustomerResource.put (flask := sample_flask) carol_request_naming_alice 2)
          sample_db in
  let suspend := serve (SuspendResource.put 1) sample_db in
  (status_code put.1 = status.HTTP_200_OK ∧
   Customer.id <$> Customer.rows put.2 = Customer.id <$> Customer.rows sample_db ∧
   (∃ c, data put.1 = Json (Customer.serialize c) ∧
         Customer.find 2 put.2 = Some c ∧ Customer.id c = Some 2) ∧
   ∀ other, other ≠ 2 → Customer.find other put.2 = Customer.find other sample_db) ∧
  (status_code suspend.1 = status.HTTP_200_OK ∧
   Customer.id <$> Customer.rows suspend.2 = Customer.id <$> Customer.rows sample_db ∧
   (∃ c, data suspend.1 = Json (Customer.serialize c) ∧
         Customer.find 1 suspend.2 = Some c ∧ Customer.id c = Some 1) ∧
   ∀ other, other ≠ 1 →
     Customer.find other suspend.2 = Customer.find other sample_db).
Proof.
  intros put suspend.
  assert (status_code put.1 = status.HTTP_200_OK) as Hput by reflexivity.
  assert (status_code suspend.1 = status.HTTP_200_OK) as Hsuspend by reflexivity.
  split; (split; [done|]).
  - destruct (id_is_immutable (flask := sample_flask) carol_request_naming_alice 2
                sample_db) as (Hid & _).
    exact (Hid put.1 put.2 (surjective_pairing put) Hput).
  - destruct (id_is_immutable (flask := sample_flask) carol_request_naming_alice 1
                sample_db) as (_ & Hid & _).
    exact (Hid suspend.1 suspend.2 (surjective_pairing suspend) Hsuspend).
Defined.

(** The PUT of the witness names customer 1 in its body and is sent to
    customer 2: customer 1 stays as it was. *)
Example put_naming_another_id :
  json_body carol_request_naming_alice ≫= (.!! "id") = Some (JInt 1) ∧
  Customer.find 1
    (serve (CustomerResource.put (flask := sample_flask) carol_request_naming_alice 2)
           sample_db).2 = Some alice ∧
  Customer.find 2
    (serve (CustomerResource.put (flask := sample_flask) carol_request_naming_alice 2)
           sample_db).2 = Some (carol 2).
Proof. split_and!; vm_compute; reflexivity. Qed.

(** * Further properties of the routes and of the test suite *)

(** ** Dates and documents, the other way round *)

Lemma digit_digit_char (x : Z) : 0 ≤ x ≤ 9 → digit (digit_char x) = Some x.
Proof.
  intros Hx. unfold digit, digit_char.
  rewrite N_ascii_embedding by lia. rewrite Z2N.id by lia.
  rewrite bool_decide_true by lia. f_equal. lia.
Qed.

Lemma two_digits_digit_char (v : Z) :
  0 ≤ v ≤ 99 → two_digits (digit_char (v / 10 mod 10)) (digit_char (v mod 10)) = Some v.
Proof.
  intros Hv. unfold two_digits.
  rewrite !digit_digit_char by (Z.div_mod_to_equations; lia). simpl.
  f_equal. Z.div_mod_to_equations; lia.
Qed.

Lemma four_digits_digit_char (v : Z) :
  0 ≤ v ≤ 9999 →
  four_digits (digit_char (v / 1000 mod 10)) (digit_char (v / 100 mod 10))
              (digit_char (v / 10 mod 10)) (digit_char (v mod 10)) = Some v.
Proof.
  intros Hv. unfold four_digits.
  replace (v / 1000 mod 10) with ((v / 100) / 10 mod 10) by (Z.div_mod_to_equations; lia).
  replace (v / 100 mod 10) with ((v / 100) mod 10) by (Z.div_mod_to_equations; lia).
  replace (v / 10 mod 10) with ((v mod 100) / 10 mod 10) by (Z.div_mod_to_equations; lia).
  replace (v mod 10) with ((v mod 100) mod 10) by (Z.div_mod_to_equations; lia).
  rewrite !two_digits_digit_char by (Z.div_mod_to_equations; lia). simpl.
  f_equal. Z.div_mod_to_equations; lia.
Qed.

Lemma days_in_month_le (y m : Z) : days_in_month y m ≤ 31.
Proof. unfold days_in_month. repeat case_bool_decide; try destruct (is_leap y); lia. Qed.

Lemma fromisoformat_isoformat (d : date) :
  valid_date d = true → fromisoformat (isoformat d) = Some d.
Proof.
  intros Hvalid. pose proof Hvalid as Hbounds. unfold valid_date in Hbounds.
  apply andb_prop in Hbounds as [Hbounds Hday].
  apply andb_prop in Hbounds as [Hyear Hmonth].
  apply bool_decide_eq_true in Hyear, Hmonth, Hday.
  pose proof (days_in_month_le (year d) (month d)).
  unfold fromisoformat, isoformat.
  rewrite list_ascii_of_string_of_list_ascii.
  rewrite bool_decide_true by done.
  rewrite four_digits_digit_char by lia.
  rewrite !two_digits_digit_char by lia. simpl.
  destruct d as [y m x]. simpl in *. by rewrite Hvalid.
Qed.

Lemma deserialize_serialize (self c : Customer.t) :
  valid_date (Customer.member_since c) = true →
  Customer.deserialize self (Customer.serialize c)
  = Ok (Customer.set_id (Customer.id self) c).
Proof.
  intros Hvalid. apply deserialize_Ok.
  destruct (serialize_data c) as (Sn & Sa & Se & Sp & Sm & Ss).
  split_and!; try done.
  exists (isoformat (Customer.member_since c)). split; [done|].
  by apply fromisoformat_isoformat.
Qed.

(** ** What a handler can answer *)

Ltac in_list := apply list_elem_of_In; simpl; auto 10.

Section outcomes.
Context {flask : Flask}.
Implicit Types (request : Request) (db : Customer.table) (customer_id : Z).

Lemma get_json_error request e :
  get_json request = Raise e → status_code (error_handler e) ∈ [400; 404; 415].
Proof.
  unfold get_json. intros He.
  repeat case_match; simplify_eq; simpl; in_list.
Qed.

Lemma deserialize_error (self : Customer.t) (data : dict) e :
  Customer.deserialize self data = Raise e →
  status_code (error_handler e) ∈ [400; 404; 415].
Proof. intros He%deserialize_Raise. rewrite He. in_list. Qed.

Lemma put_accepted request customer_id db stored data updated :
  headers request !! "Content-Type" = Some "application/json" →
  Customer.find customer_id db = Some stored →
  get_json request = Ok data →
  Customer.deserialize stored data = Ok updated →
  serve (CustomerResource.put request customer_id) db
  = (mkResponse (Json (Customer.serialize updated)) status.HTTP_200_OK [],
     Customer.update updated db).
Proof.
  intros Hheader Hstored Hjson Hde. unfold CustomerResource.put. run_view.
  rewrite check_content_type_same, Hstored by done.
  rewrite Hjson, Hde. by rewrite marshal_serialize.
Qed.

(** A PUT either stores the deserialized record and answers it with 200,
    or answers 400, 404 or 415 and stores nothing. *)
Lemma put_cases request customer_id db :
  (∃ stored data updated,
     headers request !! "Content-Type" = Some "application/json" ∧
     Customer.find customer_id db = Some stored ∧
     get_json request = Ok data ∧
     Customer.deserialize stored data = Ok updated ∧
     serve (CustomerResource.put request customer_id) db
     = (mkResponse (Json (Customer.serialize updated)) status.HTTP_200_OK [],
        Customer.update updated db)) ∨
  (∃ response,
     serve (CustomerResource.put request customer_id) db = (response, db) ∧
     status_code response ∈ [400; 404; 415]).
Proof.
  destruct (decide (headers request !! "Content-Type" = Some "application/json"))
    as [Hheader|Hheader].
  2: { right. unfold CustomerResource.put. run_view.
       rewrite check_content_type_other by done. eexists. split; [done|]. in_list. }
  destruct (Customer.find customer_id db) as [stored|] eqn:Hstored.
  2: { right. unfold CustomerResource.put. run_view.
       rewrite check_content_type_same, Hstored by done.
       eexists. split; [done|]. in_list. }
  destruct (get_json request) as [data|e] eqn:Hjson.
  2: { right. unfold CustomerResource.put. run_view.
       rewrite check_content_type_same, Hstored by done. rewrite Hjson.
       eexists. split; [done|]. exact (get_json_error _ _ Hjson). }
  destruct (Customer.deserialize stored data) as [updated|e] eqn:Hde.
  2: { right. unfold CustomerResource.put. run_view.
       rewrite check_content_type_same, Hstored by done. rewrite Hjson, Hde.
       eexists. split; [done|]. exact (deserialize_error _ _ _ Hde). }
  left. exists stored, data, updated. split_and!; try done.
  exact (put_accepted _ _ _ _ _ _ Hheader Hstored Hjson Hde).
Qed.

(** A POST either appends the created record and answers it with 201, or
    answers 400 or 415 and stores nothing. *)
Lemma post_cases request db :
  (∃ data c,
     get_json request = Ok data ∧
     Customer.deserialize Customer.new data = Ok c ∧
     serve (CustomerCollection.post request) db
     = (mkResponse (Json (Customer.serialize (Customer.create c db).1))
                   status.HTTP_201_CREATED
                   [("Location",
                     url_for "customer_resource" (Customer.id (Customer.create c db).1))],
        (Customer.create c db).2)) ∨
  (∃ response,
     serve (CustomerCollection.post request) db = (response, db) ∧
     status_code response ∈ [400; 404; 415]).
Proof.
  destruct (get_json request) as [data|e] eqn:Hjson.
  - destruct (Customer.deserialize Customer.new data) as [c|e] eqn:Hde.
    + left. exists data, c. split_and!; [done..|]. exact (post_accepted _ _ _ _ Hjson Hde).
    + right. unfold CustomerCollection.post. run_view. rewrite Hjson, Hde.
      eexists. split; [done|]. exact (deserialize_error _ _ _ Hde).
  - right. unfold CustomerCollection.post. run_view. rewrite Hjson.
    eexists. split; [done|]. exact (get_json_error _ _ Hjson).
Qed.

Lemma suspend_cases customer_id db :
  (∃ c,
     Customer.find customer_id db = Some c ∧
     serve (SuspendResource.put customer_id) db
     = (mkResponse (Json (Customer.serialize (Customer.set_status "suspended" c)))
                   status.HTTP_200_OK [],
        Customer.update (Customer.set_status "suspended" c) db)) ∨
  (Customer.find customer_id db = None ∧
   serve (SuspendResource.put customer_id) db
   = (mkResponse (Description (not_found_message customer_id))
                 status.HTTP_404_NOT_FOUND [], db)).
Proof.
  unfold SuspendResource.put. run_view.
  destruct (Customer.find customer_id db) as [c|] eqn:Hc; simpl.
  - left. exists c. by rewrite marshal_serialize.
  - by right.
Qed.

Lemma delete_cases customer_id db :
  serve (CustomerResource.delete customer_id) db
  = (mkResponse (Json ∅) status.HTTP_204_NO_CONTENT [],
     match Customer.find customer_id db with
     | Some c => Customer.delete c db
     | None => db
     end).
Proof.
  unfold CustomerResource.delete. run_view.
  by destruct (Customer.find customer_id db).
Qed.

Lemma get_cases customer_id db :
  serve (CustomerResource.get customer_id) db
  = (match Customer.find customer_id db with
     | Some c => mkResponse (Json (Customer.serialize c)) status.HTTP_200_OK []
     | None => mkResponse (Description "404 Not Found") status.HTTP_404_NOT_FOUND []
     end, db).
Proof.
  destruct (Customer.find customer_id db) eqn:Hc;
    [by apply get_found | by apply get_missing].
Qed.

(** X1. [check_content_type] lets a request through exactly when its
    Content-Type header is the expected text, whatever text is expected;
    otherwise it aborts with 415 and names the expected type.  It never
    touches the table. *)
Theorem check_content_type_accepts_exactly (content_type : string) request db :
  (headers request !! "Content-Type" = Some content_type ∧
   check_content_type content_type request db = (Ok (), db)) ∨
  (headers request !! "Content-Type" ≠ Some content_type ∧
   check_content_type content_type request db
   = (Raise (HTTPException status.HTTP_415_UNSUPPORTED_MEDIA_TYPE
               ("Content-Type must be " +:+ content_type)), db)).
Proof.
  destruct (decide (headers request !! "Content-Type" = Some content_type)) as [Heq|Hne].
  - left. split; [done|]. by apply check_content_type_same.
  - right. split; [done|]. by apply check_content_type_other.
Qed.

(** X2. A GET on /customers/{id} never changes the table; it answers 200
    exactly when a customer has the id, and then the document it answers
    is the one of that customer and carries the id that was asked for;
    otherwise it answers 404. *)
Theorem get_reads_the_requested_customer customer_id db :
  (serve (CustomerResource.get customer_id) db).2 = db ∧
  (status_code (serve (CustomerResource.get customer_id) db).1 = status.HTTP_200_OK
   ↔ is_Some (Customer.find customer_id db)) ∧
  match Customer.find customer_id db with
  | Some c =>
      data (serve (CustomerResource.get customer_id) db).1 = Json (Customer.serialize c) ∧
      Customer.serialize c !! "id" = Some (JInt customer_id)
  | None =>
      status_code (serve (CustomerResource.get customer_id) db).1
      = status.HTTP_404_NOT_FOUND
  end.
Proof.
  rewrite get_cases. simpl.
  destruct (Customer.find customer_id db) as [c|] eqn:Hc; simpl.
  - apply find_Some in Hc as [Hid _].
    split_and!; [done | done | done | by rewrite serialize_id, Hid].
  - split_and!; [done | | done]. split; [done|]. by intros [? ?].
Qed.

End outcomes.

(** ** The api as a whole *)

Section api.
Context {flask : Flask}.
Implicit Types (request : Request) (db : Customer.table) (customer_id : Z)
  (m : method) (r : resource) (args : query_string).

Lemma error_code (code : Z) : code ∈ [400; 404; 415] → 400 ≤ code ∧ code ≠ 405 ∧ code ≠ 200
  ∧ code ≠ 201.
Proof.
  intros Hin. repeat (apply elem_of_cons in Hin as [->|Hin]; [lia|]).
  by apply not_elem_of_nil in Hin.
Qed.

Lemma method_not_allowed_answer {A : Type} db :
  @abort A status.HTTP_405_METHOD_NOT_ALLOWED "Method Not Allowed" db
  = (Raise (HTTPException status.HTTP_405_METHOD_NOT_ALLOWED "Method Not Allowed"), db).
Proof. done. Qed.

(** X3. A request to the api that is answered with an error status (400
    or above) leaves the customer table exactly as it was: every handler
    aborts before it writes. *)
Theorem errors_leave_the_table m r request args db :
  400 ≤ status_code (serve (api_dispatch m r request args) db).1 →
  (serve (api_dispatch m r request args) db).2 = db.
Proof.
  destruct r as [customer_id| |customer_id], m; simpl; try done.
  - by rewrite get_cases.
  - destruct (put_cases request customer_id db)
      as [(stored & data & updated & _ & _ & _ & _ & ->)|(response & -> & _)]; simpl; [|done].
    unfold status.HTTP_200_OK. lia.
  - rewrite delete_cases. simpl. unfold status.HTTP_204_NO_CONTENT. lia.
  - by rewrite get_selects.
  - destruct (post_cases request db) as [(data & c & _ & _ & ->)|(response & -> & _)];
      simpl; [|done].
    unfold status.HTTP_201_CREATED. lia.
  - destruct (suspend_cases customer_id db) as [(c & _ & ->)|(_ & ->)]; simpl; [|done].
    unfold status.HTTP_200_OK. lia.
Qed.

(** X4. No GET request to the api changes the customer table, whatever
    the resource, the query and the request. *)
Theorem get_requests_are_safe r request args db :
  (serve (api_dispatch GET r request args) db).2 = db.
Proof.
  destruct r as [customer_id| |customer_id]; simpl.
  - by rewrite get_cases.
  - by rewrite get_selects.
  - done.
Qed.


(** X6. Every request to the api keeps the invariant of the customer
    table: the ids of the stored customers stay pairwise distinct and
    below the sequence that generates them. *)
Theorem api_keeps_ids_unique m r request args db :
  Customer.wf db → Customer.wf (serve (api_dispatch m r request args) db).2.
Proof.
  intros Hwf.
  destruct r as [customer_id| |customer_id], m; simpl; try done.
  - by apply (endpoints_keep_wf request customer_id args db).
  - by apply (endpoints_keep_wf request customer_id args db).
  - by apply (endpoints_keep_wf request customer_id args db).
  - by apply (endpoints_keep_wf request 0 args db).
  - by apply (endpoints_keep_wf request 0 args db).
  - by apply (endpoints_keep_wf request customer_id args db).
Qed.

End api.

(** ** What a write changes, and what it leaves *)

Section writes.
Context {flask : Flask}.
Implicit Types (request : Request) (db : Customer.table) (customer_id : Z)
  (c self : Customer.t).

Lemma find_delete_ne other db self :
  Customer.id self ≠ Some other →
  Customer.find other (Customer.delete self db) = Customer.find other db.
Proof.
  unfold Customer.find, Customer.delete. simpl. intros Hne. f_equal.
  induction (Customer.rows db) as [|r l IH]; [done|].
  rewrite !filter_cons.
  destruct (decide (Customer.id r ≠ Customer.id self)) as [Hkeep|Hdrop].
  - rewrite filter_cons. destruct (decide (Customer.id r = Some other)); by rewrite IH.
  - rewrite decide_False; [done|]. intros Hr. apply Hdrop. congruence.
Qed.

Lemma rows_delete_found customer_id db c :
  Customer.find customer_id db = Some c →
  Customer.rows (Customer.delete c db)
  = filter (λ r, Customer.id r ≠ Some customer_id) (Customer.rows db).
Proof.
  intros [Hid _]%find_Some. unfold Customer.delete. simpl.
  apply list_filter_iff. intros r. by rewrite Hid.
Qed.

Lemma rows_without_absent customer_id db :
  Customer.find customer_id db = None →
  filter (λ r, Customer.id r ≠ Some customer_id) (Customer.rows db) = Customer.rows db.
Proof.
  intros Hnone. rewrite find_None in Hnone.
  induction (Customer.rows db) as [|r l IH]; [done|].
  rewrite filter_cons, decide_True by (apply Hnone; left).
  f_equal. apply IH. intros c Hc. apply Hnone. by right.
Qed.

Lemma update_update self db :
  Customer.update self (Customer.update self db) = Customer.update self db.
Proof.
  unfold Customer.update. simpl. f_equal.
  rewrite <- list_fmap_compose. apply list_fmap_ext. intros _ r _. simpl.
  destruct (decide (Customer.id r = Customer.id self)) as [Heq|Hne].
  - by rewrite decide_True.
  - by rewrite decide_False.
Qed.

Lemma length_update self db :
  length (Customer.rows (Customer.update self db)) = length (Customer.rows db).
Proof. unfold Customer.update. simpl. by rewrite length_fmap. Qed.

Lemma find_create_old other db self c :
  Customer.find other db = Some c →
  Customer.find other (Customer.create self db).2 = Some c.
Proof.
  unfold Customer.find, Customer.create. simpl. intros Hc.
  rewrite filter_app. by destruct (filter _ (Customer.rows db)).
Qed.

(** X7. A PUT on /customers/{id} that is answered 200 changes the record
    of that id and nothing else: the answer carries the id of the path
    (whatever id the body names), the record is stored under it, every
    other customer reads as before, and the table has as many rows as
    before. *)
Theorem put_changes_one_customer request customer_id db response db' :
  serve (CustomerResource.put request customer_id) db = (response, db') →
  status_code response = status.HTTP_200_OK →
  (∃ updated,
     data response = Json (Customer.serialize updated) ∧
     Customer.serialize updated !! "id" = Some (JInt customer_id) ∧
     Customer.find customer_id db' = Some updated) ∧
  (∀ other, other ≠ customer_id → Customer.find other db' = Customer.find other db) ∧
  length (Customer.rows db') = length (Customer.rows db).
Proof.
  intros Hput Hok.
  destruct (put_cases request customer_id db)
    as [(stored & data & updated & _ & Hstored & _ & Hde & Heq)|(r & Heq & Hin)];
    rewrite Heq in Hput; injection Hput as <- <-.
  2: { apply error_code in Hin as (_ & _ & Hin & _). by destruct Hin. }
  apply deserialize_Ok in Hde as [Hid _].
  apply find_Some in Hstored as Hs. destruct Hs as [Hs _].
  assert (Customer.id updated = Some customer_id) as Hupdated by congruence.
  split_and!.
  - exists updated. split_and!; [done | by rewrite serialize_id, Hupdated |].
    by eapply find_update.
  - intros other Hother. apply find_update_ne. congruence.
  - apply length_update.
Qed.

(** X8. A DELETE on /customers/{id} removes the rows of that id and no
    other row: the table that is left is the old one without the rows
    that carry the id, in the old order, and every other customer reads as
    before. *)
Theorem delete_removes_one_id customer_id db :
  Customer.rows (serve (CustomerResource.delete customer_id) db).2
  = filter (λ c, Customer.id c ≠ Some customer_id) (Customer.rows db) ∧
  ∀ other, other ≠ customer_id →
    Customer.find other (serve (CustomerResource.delete customer_id) db).2
    = Customer.find other db.
Proof.
  rewrite delete_cases. simpl.
  destruct (Customer.find customer_id db) as [c|] eqn:Hc.
  - split; [by apply rows_delete_found|].
    intros other Hother. apply find_delete_ne.
    apply find_Some in Hc as [-> _]. congruence.
  - split; [by rewrite rows_without_absent|done].
Qed.

(** X9. A POST on /customers that is answered 201 appends exactly one
    row: the created record gets the next id of the sequence, the answer
    and the Location header carry that id, the sequence moves on by one,
    and every customer that could be read before reads the same. *)
Theorem post_appends_one_customer request db response db' :
  serve (CustomerCollection.post request) db = (response, db') →
  status_code response = status.HTTP_201_CREATED →
  ∃ created,
    data response = Json (Customer.serialize created) ∧
    Customer.id created = Some (Customer.next_id db) ∧
    response_headers response
    = [("Location", url_for "customer_resource" (Some (Customer.next_id db)))] ∧
    Customer.rows db' = (Customer.rows db ++ [created])%list ∧
    Customer.next_id db' = Customer.next_id db + 1 ∧
    ∀ other c, Customer.find other db = Some c → Customer.find other db' = Some c.
Proof.
  intros Hpost Hcreated.
  destruct (post_cases request db) as [(data & c & _ & _ & Heq)|(r & Heq & Hin)];
    rewrite Heq in Hpost; injection Hpost as <- <-.
  2: { apply error_code in Hin as (_ & _ & _ & Hin). by destruct Hin. }
  exists (Customer.create c db).1. split_and!; try done.
  intros other c0 Hc0. by apply find_create_old.
Qed.

(** X10. Suspending is idempotent: a second PUT on
    /customers/{id}/suspend gives the answer of the first and leaves the
    table that the first left. *)
Theorem suspend_is_idempotent customer_id db :
  serve (SuspendResource.put customer_id) (serve (SuspendResource.put customer_id) db).2
  = ((serve (SuspendResource.put customer_id) db).1,
     (serve (SuspendResource.put customer_id) db).2).
Proof.
  destruct (suspend_cases customer_id db) as [(c & Hc & Heq)|(Hc & Heq)]; rewrite Heq; simpl.
  - set (c' := Customer.set_status "suspended" c).
    assert (Customer.find customer_id (Customer.update c' db) = Some c') as Hc'.
    { eapply find_update; [done|]. by apply find_Some in Hc as [? _]. }
    destruct (suspend_cases customer_id (Customer.update c' db))
      as [(c2 & Hc2 & Heq2)|(Hc2 & _)]; [|congruence].
    rewrite Heq2. assert (c2 = c') as -> by congruence.
    replace (Customer.set_status "suspended" c') with c' by by destruct c.
    by rewrite update_update.
  - done.
Qed.

(** X11. The update is idempotent: the same PUT on /customers/{id} sent a
    second time gives the answer of the first and leaves the table that
    the first left. *)
Theorem put_is_idempotent request customer_id db :
  serve (CustomerResource.put request customer_id)
        (serve (CustomerResource.put request customer_id) db).2
  = ((serve (CustomerResource.put request customer_id) db).1,
     (serve (CustomerResource.put request customer_id) db).2).
Proof.
  destruct (put_cases request customer_id db)
    as [(stored & data & updated & Hheader & Hstored & Hjson & Hde & Heq)|(r & Heq & _)];
    rewrite Heq; simpl; [|done].
  apply find_Some in Hstored as Hs. destruct Hs as [Hs _].
  pose proof Hde as Hfields. apply deserialize_Ok in Hfields as [Hid Hfields].
  rewrite (put_accepted request customer_id (Customer.update updated db)
             updated data updated); try done.
  - by rewrite update_update.
  - eapply find_update; [done|]. congruence.
  - by apply deserialize_Ok.
Qed.




End writes.

(** ** The routes of the application itself *)

Section application.
Context {flask : Flask}.

Lemma match_rule_elsewhere (m : method) (path : string) :
  path ≠ "/health" → path ≠ "/" →
  match_rule m path = Raise (HTTPException status.HTTP_404_NOT_FOUND "Not Found").
Proof.
  intros Hhealth Hroot. unfold match_rule, url_map.
  rewrite !filter_cons, filter_nil. simpl.
  rewrite !decide_False by congruence. done.
Qed.

(** X13. [get_service_info] is dead code: whatever the verb and the path,
    the URL map never sends a request to it, because [index] is an earlier
    rule of the same path and verb. *)
Theorem get_service_info_is_unreachable (m : method) (path : string) :
  match_rule m path ≠ Ok ep_get_service_info.
Proof.
  destruct (decide (path = "/health")) as [->|Hhealth]; [by destruct m|].
  destruct (decide (path = "/")) as [->|Hroot]; [by destruct m|].
  by rewrite match_rule_elsewhere.
Qed.

(** X14. The routes that [service/routes.py] puts on the application
    itself, / and /health, never touch the customer table, whatever the
    verb; GET /health answers 200 with the message "Healthy" whatever the
    table and the deployment, and the other verbs on /health are answered
    405. *)
Theorem application_routes (m : method) (db : Customer.table) :
  (serve (dispatch_request m "/") db).2 = db ∧
  (serve (dispatch_request m "/health") db).2 = db ∧
  serve (dispatch_request GET "/health") db
  = (mkResponse (Json {[ "status" := JInt 200; "message" := JStr "Healthy" ]})
                status.HTTP_200_OK [], db) ∧
  (m = GET ∨
   status_code (serve (dispatch_request m "/health") db).1
   = status.HTTP_405_METHOD_NOT_ALLOWED).
Proof.
  split_and!.
  - unfold dispatch_request. run_view.
    destruct m; simpl; try done.
    unfold index, send_static_file. by destruct (has_static_file "index.html").
  - by destruct m.
  - done.
  - destruct m; [by left | by right..].
Qed.

End application.

(** ** The test suite *)

Section suite.
Context {flask : Flask}.
Implicit Types (db : Customer.table) (test_customer c : Customer.t)
  (factory : nat → Customer.t).

Lemma wf_setUp db : Customer.wf (TestCustomerResource.setUp db).
Proof. split; simpl; [apply NoDup_nil_2 | apply Forall_nil_2]. Qed.

Lemma get_json_client_json (document : dict) :
  get_json (client.json document) = Ok document.
Proof. by rewrite get_json_application_json. Qed.

(** Posting the document of a customer with a valid date creates that
    customer under the next id. *)
Lemma post_serialized test_customer db :
  valid_date (Customer.member_since test_customer) = true →
  client.open POST customer_collection
    (client.json (Customer.serialize test_customer)) db
  = (mkResponse
       (Json (Customer.serialize
                (Customer.set_id (Some (Customer.next_id db)) test_customer)))
       status.HTTP_201_CREATED
       [("Location", url_for "customer_resource" (Some (Customer.next_id db)))],
     Customer.mkTable
       (Customer.rows db
        ++ [Customer.set_id (Some (Customer.next_id db)) test_customer])
       (Customer.next_id db + 1)).
Proof.
  intros Hvalid. unfold client.open. simpl.
  rewrite (post_accepted _ (Customer.serialize test_customer)
             (Customer.set_id None test_customer) db).
  - done.
  - apply get_json_client_json.
  - by apply (deserialize_serialize Customer.new).
Qed.

Lemma same_data_serialize (i : option Z) test_customer :
  TestCustomerResource.same_data
    (Customer.serialize (Customer.set_id i test_customer)) test_customer = true.
Proof.
  unfold TestCustomerResource.same_data.
  destruct (serialize_data (Customer.set_id i test_customer))
    as (Sn & Sa & Se & Sp & Sm & _).
  by rewrite !bool_decide_true.
Qed.

Lemma find_posted test_customer db :
  Customer.wf db →
  Customer.find (Customer.next_id db)
    (Customer.mkTable
       (Customer.rows db
        ++ [Customer.set_id (Some (Customer.next_id db)) test_customer])
       (Customer.next_id db + 1))
  = Some (Customer.set_id (Some (Customer.next_id db)) test_customer).
Proof. intros Hwf. exact (find_create db test_customer Hwf). Qed.

Lemma int_serialize_id (i : Z) test_customer :
  TestCustomerResource.int
    (Customer.serialize (Customer.set_id (Some i) test_customer)) "id" = Some i.
Proof. unfold TestCustomerResource.int. by rewrite serialize_id. Qed.

Lemma client_get (i : Z) (request : Request) db :
  client.open GET (customer_resource i) request db
  = (match Customer.find i db with
     | Some c => mkResponse (Json (Customer.serialize c)) status.HTTP_200_OK []
     | None => mkResponse (Description "404 Not Found") status.HTTP_404_NOT_FOUND []
     end, db).
Proof. unfold client.open. simpl. apply get_cases. Qed.

Lemma client_delete (i : Z) (request : Request) db :
  client.open DELETE (customer_resource i) request db
  = (mkResponse (Json ∅) status.HTTP_204_NO_CONTENT [],
     match Customer.find i db with
     | Some c => Customer.delete c db
     | None => db
     end).
Proof. unfold client.open. simpl. apply delete_cases. Qed.

(** X15. [test_create_customer] and [test_read_customer] pass for every
    customer of the factory that has a valid date, on every table that
    has the invariant (the table that [setUp] leaves has it): the POST
    answers 201 with a Location header and the data that was posted, and
    the GET of the returned id answers 200 with the same data. *)
Theorem test_create_and_read_pass test_customer db :
  valid_date (Customer.member_since test_customer) = true →
  Customer.wf db →
  TestCustomerResource.test_create_customer test_customer db = true ∧
  TestCustomerResource.test_read_customer test_customer db = true.
Proof.
  intros Hvalid Hwf. split.
  - unfold TestCustomerResource.test_create_customer.
    rewrite post_serialized by done. simpl.
    apply same_data_serialize.
  - unfold TestCustomerResource.test_read_customer.
    rewrite post_serialized by done. simpl.
    rewrite same_data_serialize, int_serialize_id. simpl.
    rewrite client_get, find_posted by done.
    simpl. apply same_data_serialize.
Qed.

Lemma deserialize_renamed c (n : string) :
  valid_date (Customer.member_since c) = true →
  Customer.deserialize c (<["name" := JStr n]> (Customer.serialize c))
  = Ok (Customer.mk (Customer.id c) n (Customer.address c) (Customer.email c)
                    (Customer.phone_number c) (Customer.member_since c)
                    (Customer.status c)).
Proof.
  intros Hvalid. apply deserialize_Ok. simpl.
  destruct (serialize_data c) as (_ & Sa & Se & Sp & Sm & Ss).
  split_and!.
  - done.
  - apply lookup_insert_eq.
  - by rewrite lookup_insert_ne.
  - by rewrite lookup_insert_ne.
  - by rewrite lookup_insert_ne.
  - exists (isoformat (Customer.member_since c)).
    split; [by rewrite lookup_insert_ne | by apply fromisoformat_isoformat].
  - by rewrite lookup_insert_ne.
Qed.

(** X16. [test_update_customer] passes for every customer of the factory
    that has a valid date, on every table that has the invariant: the
    document that the POST returned, sent back by PUT with the name
    "Ryan" (and with its id in the body), is answered 200 with that
    name. *)
Theorem test_update_passes test_customer db :
  valid_date (Customer.member_since test_customer) = true →
  Customer.wf db →
  TestCustomerResource.test_update_customer test_customer db = true.
Proof.
  intros Hvalid Hwf. unfold TestCustomerResource.test_update_customer.
  rewrite post_serialized by done. simpl.
  set (posted := Customer.set_id (Some (Customer.next_id db)) test_customer).
  assert (TestCustomerResource.int (<["name" := JStr "Ryan"]> (Customer.serialize posted))
            "id" = Some (Customer.next_id db)) as ->.
  { unfold TestCustomerResource.int. by rewrite lookup_insert_ne, serialize_id. }
  unfold client.open. cbn [api_dispatch].
  rewrite (put_accepted _ _ _ posted
             (<["name" := JStr "Ryan"]> (Customer.serialize posted))
             (Customer.mk (Customer.id posted) "Ryan" (Customer.address posted)
                (Customer.email posted) (Customer.phone_number posted)
                (Customer.member_since posted) (Customer.status posted))).
  - done.
  - done.
  - by apply find_posted.
  - apply get_json_client_json.
  - by apply deserialize_renamed.
Qed.

Lemma text_serialize c :
  TestCustomerResource.text (Customer.serialize c) "name" = Some (Customer.name c) ∧
  TestCustomerResource.text (Customer.serialize c) "address" = Some (Customer.address c) ∧
  TestCustomerResource.text (Customer.serialize c) "email" = Some (Customer.email c) ∧
  TestCustomerResource.text (Customer.serialize c) "phone_number"
  = Some (Customer.phone_number c) ∧
  TestCustomerResource.text (Customer.serialize c) "member_since"
  = Some (isoformat (Customer.member_since c)).
Proof. by split_and!. Qed.

Lemma option_bind_Some {A B : Type} (f : A → option B) (x : A) : Some x ≫= f = f x.
Proof. done. Qed.

Lemma length_created factory (first count : nat) (next : Z) :
  length (created factory first count next) = count.
Proof.
  revert first next. induction count as [|count IH]; intros first next; simpl;
    [done | by rewrite IH].
Qed.

(** What [_create_customer] returns and leaves: the created records, in
    the order of the factory, appended to the table. *)
Lemma create_customer_spec factory (first count : nat) db :
  (∀ k, valid_date (Customer.member_since (factory k)) = true) →
  TestCustomerResource._create_customer factory first count db
  = Some (created factory first count (Customer.next_id db),
          Customer.mkTable
            (Customer.rows db ++ created factory first count (Customer.next_id db))
            (Customer.next_id db + Z.of_nat count)).
Proof.
  intros Hvalid. revert first db.
  induction count as [|count IH]; intros first db.
  - simpl. destruct db as [rows next]. simpl.
    by rewrite app_nil_r, Z.add_0_r.
  - cbn [TestCustomerResource._create_customer created].
    rewrite post_serialized by done.
    cbn [status_code data client.get_json].
    rewrite bool_decide_true by done.
    pose proof (int_serialize_id (Customer.next_id db) (factory first)) as Ti.
    destruct (text_serialize (Customer.set_id (Some (Customer.next_id db)) (factory first)))
      as (Tn & Ta & Te & Tp & Tm).
    set (posted := Customer.set_id (Some (Customer.next_id db)) (factory first)) in *.
    rewrite option_bind_Some, Ti, option_bind_Some.
    rewrite Tn, option_bind_Some, Ta, option_bind_Some, Te, option_bind_Some.
    rewrite Tp, option_bind_Some, Tm, option_bind_Some.
    rewrite fromisoformat_isoformat by apply Hvalid.
    rewrite option_bind_Some, IH, option_bind_Some.
    cbn [Customer.rows Customer.next_id].
    replace (Customer.mk _ _ _ _ _ _ _) with posted
      by (subst posted; by destruct (factory first)).
    rewrite <- app_assoc. simpl.
    by replace (Customer.next_id db + 1 + Z.of_nat count)
      with (Customer.next_id db + Z.of_nat (S count)) by lia.
Qed.

(** X17. [_create_customer] and the listing: for a factory of customers
    with valid dates and every count, the utility creates that many
    customers and the listing without a query then has that many more
    documents than the table had rows; so [test_get_customer_list], which
    counts five on the table that [setUp] cleared, passes. *)
Theorem test_get_customer_list_passes factory (count : nat) db :
  (∀ k, valid_date (Customer.member_since (factory k)) = true) →
  (∃ customers db' documents,
     TestCustomerResource._create_customer factory 0 count db = Some (customers, db') ∧
     length customers = count ∧
     client.get_json_list (client.open GET customer_collection client.bare db').1
     = Some documents ∧
     length documents = (length (Customer.rows db) + count)%nat) ∧
  TestCustomerResource.test_get_customer_list factory (TestCustomerResource.setUp db)
  = true.
Proof.
  intros Hvalid. split.
  - eexists _, _, _. split; [by apply create_customer_spec|].
    split; [apply length_created|].
    unfold client.open. cbn [api_dispatch]. rewrite get_selects. simpl.
    split; [done|]. by rewrite length_fmap, length_app, length_created.
  - unfold TestCustomerResource.test_get_customer_list.
    rewrite create_customer_spec by done.
    unfold client.open. cbn [api_dispatch]. rewrite get_selects. simpl.
    done.
Qed.

(** X18. [test_delete_customer] passes for every factory of customers
    with valid dates, on every table: the created customer is deleted with
    204 and no body, and the GET of its id then answers 404. *)
Theorem test_delete_passes factory db :
  (∀ k, valid_date (Customer.member_since (factory k)) = true) →
  TestCustomerResource.test_delete_customer factory db = true.
Proof.
  intros Hvalid. unfold TestCustomerResource.test_delete_customer.
  rewrite create_customer_spec by done.
  cbn [created Customer.id Customer.set_id].
  rewrite client_delete. cbn [status_code client.no_data data].
  rewrite client_get.
  set (db1 := Customer.mkTable _ _).
  assert (Customer.find (Customer.next_id db)
            match Customer.find (Customer.next_id db) db1 with
            | Some c => Customer.delete c db1
            | None => db1
            end = None) as ->.
  { destruct (Customer.find (Customer.next_id db) db1) as [c|] eqn:Hc; [|done].
    apply find_delete. by apply find_Some in Hc as [? _]. }
  done.
Qed.

(** X19. [test_delete_non_existing_customer] passes exactly on the tables
    that hold no customer of id 0, the table that [setUp] cleared among
    them: the GET answers 404 and the DELETE still answers 204 with no
    body. *)
Theorem test_delete_non_existing_passes db :
  (TestCustomerResource.test_delete_non_existing_customer db = true
   ↔ Customer.find 0 db = None) ∧
  TestCustomerResource.test_delete_non_existing_customer (TestCustomerResource.setUp db)
  = true.
Proof.
  assert (∀ db0, TestCustomerResource.test_delete_non_existing_customer db0 = true
                 ↔ Customer.find 0 db0 = None) as Hiff.
  { intros db0. unfold TestCustomerResource.test_delete_non_existing_customer.
    rewrite client_get, client_delete.
    destruct (Customer.find 0 db0); simpl; split; done. }
  split; [apply Hiff|]. by apply Hiff.
Qed.

(** X20. The sad paths: on every table, DELETE on /customers is
    answered 405, a POST without Content-Type 415 and a POST of the empty
    JSON object 400; [test_create_customer_wrong_content_type] passes
    exactly when the deployment does not take "text/html" as JSON, since
    the handler leaves the check of the Content-Type to [api.payload]. *)
Theorem sad_paths_pass db :
  TestSadPaths.test_method_not_allowed db = true ∧
  TestSadPaths.test_create_pet_no_content_type db = true ∧
  TestSadPaths.test_create_customer_no_data db = true ∧
  (TestSadPaths.test_create_customer_wrong_content_type db = true
   ↔ is_json_mimetype "text/html" = false).
Proof.
  split_and!.
  - done.
  - done.
  - unfold TestSadPaths.test_create_customer_no_data, client.open. simpl.
    unfold CustomerCollection.post. run_view.
    by rewrite get_json_client_json.
  - unfold TestSadPaths.test_create_customer_wrong_content_type, client.open. simpl.
    unfold CustomerCollection.post, get_json. run_view.
    replace (headers client.html !! "Content-Type") with (Some "text/html") by done.
    destruct (is_json_mimetype "text/html"); simpl; split; done.
Qed.

End suite.

(** ** The listing *)

(** X21. The listing either answers 200 with records of the table, in
    the order of the table, or answers 400 because a member_since of the
    query is no date, and then leaves the table alone; and the status
    parameter has no part in it: two queries that give the same values to
    name, address, email, phone_number and member_since get the same
    answer. *)
Theorem listing_ignores_status {flask : Flask} (request_args other_args : query_string)
    (db : Customer.table) :
  ((∃ customers,
      customers `sublist_of` Customer.rows db ∧
      serve (CustomerCollection.get request_args) db = (listing customers, db)) ∨
   (Exists (λ value, date_from_iso8601 value = None)
           (customer_args.getlist request_args "member_since") ∧
    ∃ text,
      serve (CustomerCollection.get request_args) db
      = (mkResponse (Description text) status.HTTP_400_BAD_REQUEST [], db))) ∧
  ((∀ key, key ∈ ["name"; "address"; "email"; "phone_number"; "member_since"] →
           customer_args.getlist other_args key = customer_args.getlist request_args key) →
   serve (CustomerCollection.get other_args) db
   = serve (CustomerCollection.get request_args) db).
Proof.
  split.
  - rewrite get_selects.
    destruct (decide (Exists (λ value, date_from_iso8601 value = None)
                        (customer_args.getlist request_args "member_since")))
      as [Hbad|Hgood].
    + right. split; [done|]. rewrite parse_args_refuses by done. by eexists.
    + left. apply not_Exists_Forall in Hgood; [|intros value; apply _].
      assert (Forall (λ value, is_Some (date_from_iso8601 value))
                (customer_args.getlist request_args "member_since")) as Hdates.
      { eapply Forall_impl; [exact Hgood|]. intros value Hvalue. simpl in Hvalue.
        by destruct (date_from_iso8601 value). }
      destruct (parse_args_accepts _ Hdates) as (since & -> & _).
      eexists. split; [|done].
      unfold select. destruct (first_with_value _); [apply sublist_filter | done].
  - intros Hsame. rewrite !get_selects.
    unfold customer_args.parse_args, customer_args.date_argument,
      customer_args.text_argument.
    rewrite (Hsame "name"), (Hsame "address"), (Hsame "email"),
      (Hsame "phone_number"), (Hsame "member_since") by in_list.
    by destruct (mapM _ _).
Qed.

Lemma listing_ignores_status_witness :
  (∀ key, key ∈ ["name"; "address"; "email"; "phone_number"; "member_since"] →
          customer_args.getlist (("status", "active") :: name_and_address) key
          = customer_args.getlist name_and_address key) ∧
  serve (CustomerCollection.get (flask := sample_flask)
           (("status", "active") :: name_and_address)) sample_db
  = serve (CustomerCollection.get (flask := sample_flask) name_and_address) sample_db.
Proof.
  assert (∀ key, key ∈ ["name"; "address"; "email"; "phone_number"; "member_since"] →
                 customer_args.getlist (("status", "active") :: name_and_address) key
                 = customer_args.getlist name_and_address key) as Hsame.
  { intros key Hkey.
    repeat (apply elem_of_cons in Hkey as [->|Hkey]; [reflexivity|]).
    by apply not_elem_of_nil in Hkey. }
  split; [exact Hsame|].
  exact (proj2 (listing_ignores_status (flask := sample_flask) name_and_address
                  (("status", "active") :: name_and_address) sample_db) Hsame).
Defined.

(** ** The further properties at sample requests *)

Lemma sample_factory_valid (k : nat) :
  valid_date (Customer.member_since (sample_factory k)) = true.
Proof.
  unfold valid_date, sample_factory. simpl.
  pose proof (Nat.mod_upper_bound k 28 ltac:(done)) as Hk.
  rewrite !bool_decide_true; [done|..]; unfold days_in_month; simpl; lia.
Defined.

Lemma errors_leave_the_table_witness :
  400 ≤ status_code
          (serve (api_dispatch (flask := sample_flask) PUT (customer_resource 7)
                    carol_request client.no_args) sample_db).1 ∧
  (serve (api_dispatch (flask := sample_flask) PUT (customer_resource 7)
            carol_request client.no_args) sample_db).2 = sample_db.
Proof.
  assert (400 ≤ status_code
            (serve (api_dispatch (flask := sample_flask) PUT (customer_resource 7)
                      carol_request client.no_args) sample_db).1) as Herror
    by (vm_compute; discriminate).
  split; [exact Herror|].
  exact (errors_leave_the_table (flask := sample_flask) PUT (customer_resource 7)
           carol_request client.no_args sample_db Herror).
Defined.

Lemma api_keeps_ids_unique_witness :
  Customer.wf sample_db ∧
  Customer.wf (serve (api_dispatch (flask := sample_flask) POST customer_collection
                        carol_request client.no_args) sample_db).2.
Proof.
  split; [exact sample_db_wf|].
  exact (api_keeps_ids_unique (flask := sample_flask) POST customer_collection
           carol_request client.no_args sample_db sample_db_wf).
Defined.

Lemma put_changes_one_customer_witness :
  let put := serve (CustomerResource.put (flask := sample_flask) carol_request 2) sample_db in
  status_code put.1 = status.HTTP_200_OK ∧
  (∃ updated,
     data put.1 = Json (Customer.serialize updated) ∧
     Customer.serialize updated !! "id" = Some (JInt 2) ∧
     Customer.find 2 put.2 = Some updated) ∧
  (∀ other, other ≠ 2 → Customer.find other put.2 = Customer.find other sample_db) ∧
  length (Customer.rows put.2) = length (Customer.rows sample_db).
Proof.
  intros put.
  assert (status_code put.1 = status.HTTP_200_OK) as Hok by reflexivity.
  split; [exact Hok|].
  exact (put_changes_one_customer (flask := sample_flask) carol_request 2 sample_db
           put.1 put.2 (surjective_pairing put) Hok).
Defined.

Lemma post_appends_one_customer_witness :
  let post := serve (CustomerCollection.post (flask := sample_flask) carol_request)
                sample_db in
  status_code post.1 = status.HTTP_201_CREATED ∧
  ∃ created,
    data post.1 = Json (Customer.serialize created) ∧
    Customer.id created = Some (Customer.next_id sample_db) ∧
    response_headers post.1
    = [("Location", url_for "customer_resource" (Some (Customer.next_id sample_db)))] ∧
    Customer.rows post.2 = (Customer.rows sample_db ++ [created])%list ∧
    Customer.next_id post.2 = Customer.next_id sample_db + 1 ∧
    ∀ other c, Customer.find other sample_db = Some c → Customer.find other post.2 = Some c.
Proof.
  intros post.
  assert (status_code post.1 = status.HTTP_201_CREATED) as Hcreated by reflexivity.
  split; [exact Hcreated|].
  exact (post_appends_one_customer (flask := sample_flask) carol_request sample_db
           post.1 post.2 (surjective_pairing post) Hcreated).
Defined.

Lemma test_create_and_read_pass_witness :
  valid_date (Customer.member_since (sample_factory 0)) = true ∧
  Customer.wf sample_db ∧
  TestCustomerResource.test_create_customer (flask := sample_flask)
    (sample_factory 0) sample_db = true ∧
  TestCustomerResource.test_read_customer (flask := sample_flask)
    (sample_factory 0) sample_db = true.
Proof.
  split; [exact (sample_factory_valid 0)|]. split; [exact sample_db_wf|].
  exact (test_create_and_read_pass (flask := sample_flask) (sample_factory 0) sample_db
           (sample_factory_valid 0) sample_db_wf).
Defined.

Lemma test_update_passes_witness :
  valid_date (Customer.member_since (sample_factory 0)) = true ∧
  Customer.wf sample_db ∧
  TestCustomerResource.test_update_customer (flask := sample_flask)
    (sample_factory 0) sample_db = true.
Proof.
  split; [exact (sample_factory_valid 0)|]. split; [exact sample_db_wf|].
  exact (test_update_passes (flask := sample_flask) (sample_factory 0) sample_db
           (sample_factory_valid 0) sample_db_wf).
Defined.

Lemma test_get_customer_list_passes_witness :
  (∀ k, valid_date (Customer.member_since (sample_factory k)) = true) ∧
  TestCustomerResource.test_get_customer_list (flask := sample_flask) sample_factory
    (TestCustomerResource.setUp sample_db) = true.
Proof.
  split; [exact sample_factory_valid|].
  exact (proj2 (test_get_customer_list_passes (flask := sample_flask) sample_factory 5
                  sample_db sample_factory_valid)).
Defined.

Lemma test_delete_passes_witness :
  (∀ k, valid_date (Customer.member_since (sample_factory k)) = true) ∧
  TestCustomerResource.test_delete_customer (flask := sample_flask) sample_factory
    sample_db = true.
Proof.
  split; [exact sample_factory_valid|].
  exact (test_delete_passes (flask := sample_flask) sample_factory sample_db
           sample_factory_valid).
Defined.

